(** * Adsorption.py: the deposition, sampling and rasterization loop

    A shallow embedding of [AdsorptionSimulator.run_simulation]
    (src/Adsorption.py, lines 87-223) and the properties of its core loop.

    Python's [float] is IEEE 754 binary64; it is modelled by the Standard
    Library's [spec_float] at precision 53 and maximal exponent 1024, so
    every product, quotient and comparison below is rounded exactly as the
    interpreter rounds it.  Python's [int] is unbounded and is modelled by
    [Z].  Memory is taken to be unbounded: a run whose arrays would not fit
    in a real machine still proceeds in the model. *)

From Stdlib Require Import ZArith QArith Qround Qabs String List Bool Lia.
From Stdlib Require Import SpecFloat.
From Stdlib Require DecimalNat DecimalString.
Import ListNotations.
Open Scope Z_scope.

(** ** Binary64 arithmetic *)

Module Float64.

Definition prec : Z := 53.
Definition emax : Z := 1024.

Definition float := spec_float.

Definition fmul : float -> float -> float := SFmul prec emax.
Definition fdiv : float -> float -> float := SFdiv prec emax.
Definition fadd : float -> float -> float := SFadd prec emax.
Definition fsub : float -> float -> float := SFsub prec emax.

Definition fle (a b : float) : bool := SFleb a b.
Definition flt (a b : float) : bool := SFltb a b.
Definition feq (a b : float) : bool := SFeqb a b.

(** The binary64 number nearest to the integer [z] (ties to even). *)
Definition of_Z (z : Z) : float := binary_normalize prec emax z 0 false.

Definition is_finite (x : float) : bool :=
  match x with
  | S754_zero _ | S754_finite _ _ _ => true
  | S754_infinity _ | S754_nan => false
  end.

(** The exact rational value of a finite float; [None] for infinities and
    NaN. *)
Definition to_Q (x : float) : option Q :=
  match x with
  | S754_zero _ => Some 0%Q
  | S754_finite s m e =>
      let sm := cond_Zopp s (Zpos m) in
      Some match e with
           | Z0 => inject_Z sm
           | Zpos p => inject_Z (sm * Zpos (2 ^ p))
           | Zneg p => Qmake sm (2 ^ p)
           end
  | S754_infinity _ | S754_nan => None
  end.

(** Truncation toward zero of a finite float, as [float.__int__] does. *)
Definition trunc (x : float) : option Z :=
  match x with
  | S754_zero _ => Some 0
  | S754_finite s m e =>
      let sm := cond_Zopp s (Zpos m) in
      Some match e with
           | Z0 => sm
           | Zpos p => sm * Zpos (2 ^ p)
           | Zneg p => Z.quot sm (Zpos (2 ^ p))
           end
  | S754_infinity _ | S754_nan => None
  end.

(** The mathematical floor of a finite float. *)
Definition floor (x : float) : option Z := option_map Qfloor (to_Q x).

Definition sign_bit (x : float) : bool :=
  match x with
  | S754_zero s | S754_infinity s | S754_finite s _ _ => s
  | S754_nan => false
  end.

End Float64.

Import Float64.

(** ** Python values and exceptions *)

Inductive exn : Type :=
| ValueError
| OverflowError
| IndexError.

Inductive res (A : Type) : Type :=
| Ok (a : A)
| Raise (e : exn).

Arguments Ok {A} a.
Arguments Raise {A} e.

(** [int(x)] for a float [x]: truncation toward zero; NaN raises
    [ValueError], an infinity raises [OverflowError]. *)
Definition py_int (x : float) : res Z :=
  match x with
  | S754_nan => Raise ValueError
  | S754_infinity _ => Raise OverflowError
  | _ => match trunc x with
         | Some z => Ok z
         | None => Raise ValueError
         end
  end.

(** The conversion of an [int] operand to [float] in mixed arithmetic:
    correctly rounded, [OverflowError] when the integer is too large. *)
Definition py_float (z : Z) : res float :=
  let x := of_Z z in
  if is_finite x then Ok x else Raise OverflowError.

(** The builtin [min(a, b)]: the first argument unless the second is
    strictly smaller. *)
Definition py_min (a b : float) : float := if flt b a then b else a.

(** ** Constants of [run_simulation] (lines 104-114 and 138) *)

(** A literal [n/d] with [n] and [d] exactly representable is the correctly
    rounded quotient. *)
Definition literal (n d : Z) : float := fdiv (of_Z n) (of_Z d).

Definition NA : float := of_Z 602200000000000000000000.
Definition SCCM_to_mols : float := literal 745 1000000000.

Definition surface_length : Z := 10.
Definition surface_width : Z := 10.
Definition surface_thickness : Z := 2.

Definition total_time : Z := 10.
Definition n_frames : nat := 50.
Definition time_per_frame : float :=
  fdiv (of_Z total_time) (of_Z (Z.of_nat n_frames)).

Definition max_sites : float := of_Z 1000000.

Definition invalid_status : string := "Please enter valid inputs.".
Definition running_status : string := "Simulation running...".
Definition completed_status : string :=
  "✅ Simulation completed. GIF, heatmap, adsorption and resistance graphs generated.".

(** ** Parameters (lines 88-98 and 116-128) *)

(** The raw inputs.  Each numeric field holds the outcome of [float(text)]
    on the text of its line edit: [Some v] when the text parses, [None] when
    [float] raises [ValueError]. *)
Record inputs : Type := {
  surface_type : string;
  sccm_input : option float;
  stick_input : option float;
  r0_input : option float;
  k_input : option float
}.

Record params : Type := {
  sccm : float;
  stick_coeff : float;
  r0 : float;
  k : float
}.

(** The [try] block: four conversions, then [0 <= stick_coeff <= 1]. *)
Definition validate (i : inputs) : option params :=
  match sccm_input i, stick_input i, r0_input i, k_input i with
  | Some a, Some s, Some r, Some c =>
      if fle (of_Z 0) s && fle s (of_Z 1)
      then Some {| sccm := a; stick_coeff := s; r0 := r; k := c |}
      else None
  | _, _, _, _ => None
  end.

Definition mol_per_s (p : params) : float := fmul (sccm p) SCCM_to_mols.
Definition molecule_per_s (p : params) : float := fmul (mol_per_s p) NA.

(** The argument of [int] on line 118. *)
Definition molecule_per_frame_raw (p : params) : float :=
  fmul (fmul (molecule_per_s p) time_per_frame) (stick_coeff p).

Definition molecule_per_frame (p : params) : res Z :=
  py_int (molecule_per_frame_raw p).

Definition adsorption_multiplier (surface : string) : float :=
  if String.eqb surface "nanorod" then of_Z 2
  else if String.eqb surface "nanoflake" then literal 12 10
  else if String.eqb surface "nanoparticle" then literal 8 10
  else of_Z 1.

(** The argument of [int] on line 141, and line 141 itself. *)
Definition effective_raw (budget : Z) (mult : float) : res float :=
  match py_float budget with
  | Ok b => Ok (fmul b mult)
  | Raise e => Raise e
  end.

Definition effective_molecules (budget : Z) (mult : float) : res Z :=
  match effective_raw budget mult with
  | Ok x => py_int x
  | Raise e => Raise e
  end.

(** ** Rasterization (lines 162-166) *)

(** A row [[x, y, z]] of [adsorbed_positions]; [z] is the integer that
    [np.full] copies from [surface_thickness]. *)
Record point : Type := { px : float; py : float; pz : Z }.

(** The density grid, row [i] holding the bins of the [i]-th interval in
    [x].  The counts are kept as natural numbers; numpy stores them as
    float64, which is exact below 2^53 points. *)
Definition grid : Type := list (list nat).

Definition bins : nat := 50.

(** [numpy.linspace(start, stop, num)] with the end point included. *)
Definition linspace (start stop : float) (num : nat) : list float :=
  let div := (num - 1)%nat in
  let step := fdiv (fsub stop start) (of_Z (Z.of_nat div)) in
  map (fun i => fadd (fmul (of_Z (Z.of_nat i)) step) start) (seq 0 div)
    ++ [stop].

Definition x_edges : list float :=
  Eval vm_compute in linspace (of_Z 0) (of_Z surface_length) (S bins).
Definition y_edges : list float :=
  Eval vm_compute in linspace (of_Z 0) (of_Z surface_width) (S bins).

(** [numpy.searchsorted(edges, x, side='right')] on sorted [edges]: the
    number of edges that are at most [x]. *)
Definition searchsorted_right (edges : list float) (x : float) : nat :=
  length (filter (fun e => fle e x) edges).

(** Modelled from the spec: [numpy.histogram2d] is library code outside
    src/.  Section 4.3 fixes its binning: 50 bins per axis over the given
    range, each axis binned on its own, half-open bins except that a point
    on the upper boundary belongs to the last bin.  As numpy does, the bin
    number of a coordinate is its right insertion point among the 51 edges,
    moved one bin left when the coordinate equals the last edge; numbers 0
    and 51 are the outlier bins and are cut from the grid. *)
Definition bin_number (edges : list float) (x : float) : nat :=
  let c := searchsorted_right edges x in
  if feq x (last edges S754_nan) then (c - 1)%nat else c.

Definition bin_numbers (pts : list point) : list (nat * nat) :=
  map (fun p => (bin_number x_edges (px p), bin_number y_edges (py p))) pts.

Definition bincount (xy : list (nat * nat)) (a b : nat) : nat :=
  length (filter (fun c => Nat.eqb (fst c) a && Nat.eqb (snd c) b) xy).

Definition histogram2d (pts : list point) : grid :=
  let xy := bin_numbers pts in
  map (fun i => map (fun j => bincount xy (S i) (S j)) (seq 0 bins))
      (seq 0 bins).

(** [ads = np.array(adsorbed_positions)] followed by [ads[:,0]]: an empty
    list makes a one-dimensional array, and indexing it with two indices
    raises [IndexError]. *)
Definition rasterize (cloud : list point) : res grid :=
  match cloud with
  | [] => Raise IndexError
  | _ :: _ => Ok (histogram2d cloud)
  end.

Definition grid_sum (g : grid) : nat :=
  fold_right (fun row acc => (fold_right Nat.add 0 row + acc)%nat) 0%nat g.

(** ** The simulation loop (lines 130-181) *)

Section Simulation.

(** [numpy.exp] on a scalar. *)
Variable np_exp : float -> float.

(** The state of numpy's global random generator, and
    [numpy.random.uniform(low, high, size)] drawing [size >= 0] samples
    from it: the array returned, given by its entries at the indices below
    [size], and the generator afterwards. *)
Variable rng : Type.
Variable random_uniform :
  float -> float -> nat -> rng -> (nat -> float) * rng.

(** The local variables of [run_simulation] that the loop updates.
    [filenames] pairs each saved file [frame_t.png] (by its index [t])
    with the density grid the file renders; the last one is [heatmap]. *)
Record state : Type := {
  adsorbed_positions : list point;
  time_points_1s : list Z;
  ads_counts_1s : list Z;
  resistance_1s : list float;
  current_second : Z;
  filenames : list (nat * grid);
  generator : rng
}.

Definition init_state (g : rng) : state :=
  {| adsorbed_positions := [];
     time_points_1s := [];
     ads_counts_1s := [];
     resistance_1s := [];
     current_second := 0;
     filenames := [];
     generator := g |}.

(** One pass through a block of the loop body either falls through with
    the updated locals or raises with the locals as they then are. *)
Inductive step : Type :=
| Next (st : state)
| Abort (e : exn) (st : state).

(** Lines 143-145 and the rows that line 148 builds from them:
    [[x_positions[i], y_positions[i], z_positions[i]]] for [i] in
    [range(m)]. *)
Definition rows (x_positions y_positions : nat -> float)
  (z_positions : nat -> Z) (m : nat) : list point :=
  map (fun i => {| px := x_positions i;
                   py := y_positions i;
                   pz := z_positions i |}) (seq 0 m).

Definition draw (m : nat) (g : rng) : list point * rng :=
  let (x_positions, g1) :=
    random_uniform (of_Z 0) (of_Z surface_length) m g in
  let (y_positions, g2) :=
    random_uniform (of_Z 0) (of_Z surface_width) m g1 in
  let z_positions := fun _ : nat => surface_thickness in
  (rows x_positions y_positions z_positions m, g2).

(** Lines 143-148.  A negative size makes [numpy.random.uniform] raise
    [ValueError] on line 143. *)
Definition deposit (n : Z) (st : state) : step :=
  if n <? 0 then Abort ValueError st
  else
    let (new, g2) := draw (Z.to_nat n) (generator st) in
    Next {| adsorbed_positions := adsorbed_positions st ++ new;
            time_points_1s := time_points_1s st;
            ads_counts_1s := ads_counts_1s st;
            resistance_1s := resistance_1s st;
            current_second := current_second st;
            filenames := filenames st;
            generator := g2 |}.

Definition coverage_of (total : float) : float :=
  py_min (fdiv total max_sites) (of_Z 1).

Definition resistance_of (p : params) (coverage : float) : float :=
  fmul (r0 p) (np_exp (fmul (k p) coverage)).

(** Lines 150-159. *)
Definition elapsed_time (t : nat) : float :=
  fmul (of_Z (Z.of_nat t + 1)) time_per_frame.

Definition sample_due (t : nat) (second : Z) : bool :=
  fle (of_Z (second + 1)) (elapsed_time t).

Definition sample (p : params) (t : nat) (st : state) : step :=
  if sample_due t (current_second st) then
    let second := current_second st + 1 in
    let total_adsorbed := Z.of_nat (length (adsorbed_positions st)) in
    let bumped :=
      {| adsorbed_positions := adsorbed_positions st;
         time_points_1s := time_points_1s st;
         ads_counts_1s := ads_counts_1s st;
         resistance_1s := resistance_1s st;
         current_second := second;
         filenames := filenames st;
         generator := generator st |} in
    match py_float total_adsorbed with
    | Raise e => Abort e bumped
    | Ok total =>
        let resistance := resistance_of p (coverage_of total) in
        Next {| adsorbed_positions := adsorbed_positions st;
                time_points_1s := time_points_1s st ++ [second];
                ads_counts_1s := ads_counts_1s st ++ [total_adsorbed];
                resistance_1s := resistance_1s st ++ [resistance];
                current_second := second;
                filenames := filenames st;
                generator := generator st |}
    end
  else Next st.

(** Lines 162-181. *)
Definition render (t : nat) (st : state) : step :=
  match rasterize (adsorbed_positions st) with
  | Raise e => Abort e st
  | Ok heatmap =>
      Next {| adsorbed_positions := adsorbed_positions st;
              time_points_1s := time_points_1s st;
              ads_counts_1s := ads_counts_1s st;
              resistance_1s := resistance_1s st;
              current_second := current_second st;
              filenames := filenames st ++ [(t, heatmap)];
              generator := generator st |}
  end.

Definition and_then (s : step) (f : state -> step) : step :=
  match s with
  | Next st => f st
  | Abort e st => Abort e st
  end.

(** The body of [for t in range(n_frames)]. *)
Definition frame (p : params) (budget : Z) (mult : float) (t : nat)
  (st : state) : step :=
  match effective_molecules budget mult with
  | Raise e => Abort e st
  | Ok n => and_then (and_then (deposit n st) (sample p t)) (render t)
  end.

Fixpoint run_frames (p : params) (budget : Z) (mult : float)
  (ts : list nat) (st : state) : step :=
  match ts with
  | [] => Next st
  | t :: rest => and_then (frame p budget mult t st)
                          (run_frames p budget mult rest)
  end.

(** ** [run_simulation] as far as the end of the loop

    What follows the loop (lines 183-223: the three figures, the saved
    heatmap, the GIF and the final status) draws what the loop has
    computed and is taken to succeed. *)

Inductive outcome : Type :=
| Rejected (status : string)
| Crashed (status : string) (e : exn) (st : state)
| Completed (status : string) (st : state).

Definition simulate (surface : string) (p : params) (g : rng) : outcome :=
  match molecule_per_frame p with
  | Raise e => Crashed running_status e (init_state g)
  | Ok budget =>
      match run_frames p budget (adsorption_multiplier surface)
              (seq 0 n_frames) (init_state g) with
      | Abort e st => Crashed running_status e st
      | Next st => Completed completed_status st
      end
  end.

Definition run_simulation (i : inputs) (g : rng) : outcome :=
  match validate i with
  | None => Rejected invalid_status
  | Some p => simulate (surface_type i) p g
  end.

End Simulation.

Arguments init_state {rng} g.
Arguments Next {rng} st.
Arguments Abort {rng} e st.
Arguments Rejected {rng} status.
Arguments Crashed {rng} status e st.
Arguments Completed {rng} status st.
Arguments adsorbed_positions {rng} s.
Arguments time_points_1s {rng} s.
Arguments ads_counts_1s {rng} s.
Arguments resistance_1s {rng} s.
Arguments current_second {rng} s.
Arguments filenames {rng} s.
Arguments generator {rng} s.
Arguments draw {rng} random_uniform m g.
Arguments deposit {rng} random_uniform n st.
Arguments sample np_exp {rng} p t st.
Arguments render {rng} t st.
Arguments and_then {rng} s f.
Arguments frame np_exp {rng} random_uniform p budget mult t st.
Arguments run_frames np_exp {rng} random_uniform p budget mult ts st.
Arguments simulate np_exp {rng} random_uniform surface p g.
Arguments run_simulation np_exp {rng} random_uniform i g.

(** The locals at the point where a pass stopped. *)
Definition locals {rng : Type} (s : step rng) : state rng :=
  match s with
  | Next st => st
  | Abort _ st => st
  end.

(** A position on the surface: what line 148 is meant to append. *)
Definition on_surface (p : point) : Prop :=
  fle (of_Z 0) (px p) = true /\ fle (px p) (of_Z surface_length) = true /\
  fle (of_Z 0) (py p) = true /\ fle (py p) (of_Z surface_width) = true /\
  pz p = surface_thickness.

(** The bin numbers of the grid proper, outlier bins excluded. *)
Definition in_core (c : nat * nat) : bool :=
  ((1 <=? fst c) && (fst c <=? bins)
   && ((1 <=? snd c) && (snd c <=? bins)))%nat.

(** Sums over index lists. *)
Definition sum_over (f : nat -> nat) (l : list nat) : nat :=
  fold_right Nat.add 0%nat (map f l).

(** The per-frame count read as a floor,
    [floor(per_frame_molecule_budget * morphology_multiplier)], the product
    taken in binary64 as line 141 takes it. *)
Definition floor_count (budget : Z) (mult : float) : option Z :=
  match effective_raw budget mult with
  | Ok x => floor x
  | Raise _ => None
  end.

(** The number of whole seconds that have elapsed after [m] frames. *)
Definition seconds_after (m : nat) : nat := (m / 5)%nat.

(** No cloud length sampled during a run with [n] molecules per frame is
    too large for the [int]-to-[float] conversion on line 154. *)
Definition sampled_counts_convert (n : Z) : bool :=
  forallb (fun s => is_finite (of_Z (Z.of_nat (5 * s * Z.to_nat n))))
          (seq 1 10).

Definition nondecreasing (l : list Z) : Prop :=
  forall i j, (i <= j < length l)%nat -> nth i l 0 <= nth j l 0.

(** The deterministic part of the locals after [m] frames of a run that
    deposits [n] molecules per frame. *)
Definition counted (np_exp : float -> float) {rng : Type} (p : params)
  (n : Z) (m : nat) (st : state rng) : Prop :=
  length (adsorbed_positions st) = (m * Z.to_nat n)%nat /\
  current_second st = Z.of_nat (seconds_after m) /\
  time_points_1s st = map Z.of_nat (seq 1 (seconds_after m)) /\
  ads_counts_1s st
  = map (fun s => Z.of_nat (5 * s * Z.to_nat n)) (seq 1 (seconds_after m)) /\
  resistance_1s st
  = map (fun s => resistance_of np_exp p
                    (coverage_of (of_Z (Z.of_nat (5 * s * Z.to_nat n)))))
        (seq 1 (seconds_after m)) /\
  map fst (filenames st) = seq 0 m.

(** The locals a run leaves behind; a rejected run has none. *)
Definition outcome_state {rng : Type} (o : outcome rng) : option (state rng) :=
  match o with
  | Rejected _ => None
  | Crashed _ _ st => Some st
  | Completed _ st => Some st
  end.

(** ** Closed instances for examples *)

Module Demo.

(** A generator that hands out the two end points of the interval in
    turn; its state counts the draws made. *)
Definition alternating (lo hi : float) (n : nat) (g : nat)
  : (nat -> float) * nat :=
  (fun i => if Nat.even (g + i) then lo else hi, (g + n)%nat).

(** A stand-in for [numpy.exp]: the Taylor polynomial of degree 4, in
    binary64. *)
Definition taylor_exp (x : float) : float :=
  let x2 := fmul x x in
  let x3 := fmul x2 x in
  let x4 := fmul x3 x in
  fadd (fadd (fadd (fadd (of_Z 1) x) (fdiv x2 (of_Z 2)))
             (fdiv x3 (of_Z 6)))
       (fdiv x4 (of_Z 24)).

Definition fields (surface : string) (flow stick : float) : inputs :=
  {| surface_type := surface;
     sccm_input := Some flow;
     stick_input := Some stick;
     r0_input := Some (of_Z 1000);
     k_input := Some (of_Z 2) |}.

(** Flow rate 0, sticking coefficient 1: no molecule arrives. *)
Definition no_flow : inputs := fields "nanorod" (of_Z 0) (of_Z 1).

(** Flow rate -1, sticking coefficient 1. *)
Definition reverse_flow : inputs := fields "nanorod" (of_Z (-1)) (of_Z 1).

(** Flow rate -2^-57 (the text -6.938893903907228e-18), sticking
    coefficient 1: the product on line 118 is about -0.62. *)
Definition faint_reverse_flow : inputs :=
  fields "nanorod" (S754_finite true 4503599627370496 (-109)) (of_Z 1).

(** Flow rate 2^-56 (the text 1.3877787807814457e-17), sticking
    coefficient 1: one molecule per frame before the multiplier, two on a
    nanorod surface. *)
Definition faint_flow : inputs :=
  fields "nanorod" (S754_finite false 4503599627370496 (-108)) (of_Z 1).

Definition faint_reverse_params : params :=
  {| sccm := S754_finite true 4503599627370496 (-109);
     stick_coeff := of_Z 1;
     r0 := of_Z 1000;
     k := of_Z 2 |}.

Definition faint_params : params :=
  {| sccm := S754_finite false 4503599627370496 (-108);
     stick_coeff := of_Z 1;
     r0 := of_Z 1000;
     k := of_Z 2 |}.

(** The locals at the end of the run on [faint_flow], and at the end of its
    first frame. *)
Definition faint_final : state nat :=
  match run_simulation taylor_exp alternating faint_flow 0%nat with
  | Rejected _ => init_state 0%nat
  | Crashed _ _ st => st
  | Completed _ st => st
  end.

Definition faint_first : state nat :=
  locals (run_frames taylor_exp alternating faint_params 1 (of_Z 2)
            (seq 0 1) (init_state 0%nat)).

End Demo.

(** More closed instances: the locals after the first two frames of the
    run on [Demo.faint_flow], and an input whose flow rate is NaN. *)
Definition faint_second : state nat :=
  locals (run_frames Demo.taylor_exp Demo.alternating Demo.faint_params 1
            (of_Z 2) (seq 0 2) (init_state 0%nat)).

Definition nan_flow : inputs := Demo.fields "nanorod" S754_nan (of_Z 1).

Definition nan_flow_params : params :=
  {| sccm := S754_nan; stick_coeff := of_Z 1;
     r0 := of_Z 1000; k := of_Z 2 |}.

Definition no_flow_params : params :=
  {| sccm := of_Z 0; stick_coeff := of_Z 1;
     r0 := of_Z 1000; k := of_Z 2 |}.

(** ** The surface selector (lines 29-31 and 88) *)

(** The items that [__init__] adds to [surface_combo]. *)
Definition surface_choices : list string :=
  ["nanorod"; "nanoflake"; "nanoparticle"]%string.

(** [QComboBox.currentText()] of a combo box that cannot be edited: the
    text of the current item, the empty string when there is none. *)
Definition currentText (items : list string) (index : nat) : string :=
  nth index items ""%string.

(** ** After the loop (lines 183-223) *)

(** [heatmap.T] for a two-dimensional array. *)
Definition transpose (g : grid) : grid :=
  map (fun j => map (fun row => nth j row 0%nat) g)
      (seq 0 (length (hd [] g))).

(** The file name [f"frame_{t}.png"] of line 178. *)
Definition decimal (t : nat) : string :=
  DecimalString.NilEmpty.string_of_uint (Nat.to_uint t).

Definition frame_name (t : nat) : string :=
  ("frame_" ++ decimal t ++ ".png")%string.

(** The working directory, newest file first.  The content of a frame file
    is taken to be the array that its figure shows, [heatmap.T]. *)
Definition store : Type := list (string * grid).

Definition write (name : string) (image : grid) (s : store) : store :=
  (name, image) :: s.

Fixpoint read (name : string) (s : store) : option grid :=
  match s with
  | [] => None
  | (n, image) :: rest =>
      if String.eqb n name then Some image else read name rest
  end.

(** The calls of [plt.savefig(filename)] on line 179, in the order of the
    frames that reached it. *)
Definition saved_frames (fs : list (nat * grid)) : store :=
  fold_left (fun s f => write (frame_name (fst f)) (transpose (snd f)) s)
            fs [].

(** Lines 218-221: [imageio.imread] of every file name in turn; [None] when
    a file is missing. *)
Fixpoint read_all (names : list string) (s : store) : option (list grid) :=
  match names with
  | [] => Some []
  | name :: rest =>
      match read name s, read_all rest s with
      | Some image, Some images => Some (image :: images)
      | _, _ => None
      end
  end.

(** [Axes.plot(xs, ys)]: the points of the curve; [None] when the two
    sequences differ in length, where matplotlib raises. *)
Definition plot {A B : Type} (xs : list A) (ys : list B)
  : option (list (A * B)) :=
  if Nat.eqb (length xs) (length ys) then Some (combine xs ys) else None.

(** What the code after the loop hands to the window and the disk. *)
Record artifacts : Type := {
  final_heatmap : grid;
  adsorption_curve : list (Z * Z);
  resistance_curve : list (Z * float);
  heatmap_png : grid;
  gif_frames : list grid;
  gif_frame_duration : float;
  final_status : string
}.

(** Lines 183-223 on the locals the loop has left; [None] when one of the
    steps raises ([heatmap] unbound, a curve whose sequences differ in
    length, a frame file that is missing). *)
Definition finish {rng : Type} (st : state rng) : option artifacts :=
  match rev (filenames st) with
  | [] => None
  | (_, heatmap) :: _ =>
      match plot (time_points_1s st) (ads_counts_1s st),
            plot (time_points_1s st) (resistance_1s st),
            read_all (map (fun f => frame_name (fst f)) (filenames st))
                     (saved_frames (filenames st)) with
      | Some ads, Some res, Some images =>
          Some {| final_heatmap := transpose heatmap;
                  adsorption_curve := ads;
                  resistance_curve := res;
                  heatmap_png := transpose heatmap;
                  gif_frames := images;
                  gif_frame_duration := literal 2 10;
                  final_status := completed_status |}
      | _, _, _ => None
      end
  end.

(** ** Invariants of the locals *)

(** The three series advance together: [k] samples, the seconds 1 to [k]. *)
Definition in_step {rng : Type} (st : state rng) (k : nat) : Prop :=
  time_points_1s st = map Z.of_nat (seq 1 k) /\
  length (ads_counts_1s st) = k /\
  length (resistance_1s st) = k.

(** Every recorded count is at most [bound], and the counts never
    decrease. *)
Definition counts_below (counts : list Z) (bound : Z) : Prop :=
  Forall (fun c => 0 <= c <= bound) counts /\ nondecreasing counts.

(** Bin by bin, [g] is at most [g']. *)
Definition grid_le (g g' : grid) : Prop :=
  forall i j, (nth j (nth i g []) 0 <= nth j (nth i g' []) 0)%nat.

(** The frame files after [m] frames that deposit [n] points each: frame
    [t] holds the histogram of the first [(t + 1) * n] points. *)
Definition frames_of (cloud : list point) (n m : nat) : list (nat * grid) :=
  map (fun t => (t, histogram2d (firstn (S t * n) cloud))) (seq 0 m).

(** A signed zero. *)
Definition is_zero (x : float) : bool :=
  match x with
  | S754_zero _ => true
  | _ => false
  end.

(** What a pass of the loop leaves in the series and the second counter
    when [k] samples have been recorded: the counter equals [k], or is one
    ahead when the pass stopped with [OverflowError] in the conversion on
    line 154, after line 152 and before line 157. *)
Definition ratchet {rng : Type} (s : step rng) (k : nat) : Prop :=
  match s with
  | Next st => in_step st k /\ current_second st = Z.of_nat k
  | Abort e st =>
      in_step st k /\
      (current_second st = Z.of_nat k
       \/ (e = OverflowError /\ current_second st = Z.of_nat k + 1))
  end.

(** * Properties *)

(** ** The order on binary64 *)

Section FloatOrder.

Lemma SFcompare_antisym (x y : float) :
  SFcompare y x = option_map CompOpp (SFcompare x y).
Proof.
  destruct x as [sx | sx | | sx mx ex], y as [sy | sy | | sy my ey];
    simpl; try reflexivity;
    try (destruct sx; reflexivity); try (destruct sy; reflexivity);
    try (destruct sx, sy; reflexivity).
  assert (Hm : PosDef.Pos.compare_cont Eq my mx
               = CompOpp (PosDef.Pos.compare_cont Eq mx my))
    by (symmetry; exact (Pos.compare_cont_antisym mx my Eq)).
  destruct sx, sy; simpl; try reflexivity;
    rewrite (Z.compare_antisym ex ey);
    destruct (ex ?= ey); simpl; try reflexivity;
    rewrite Hm; destruct (PosDef.Pos.compare_cont Eq mx my); reflexivity.
Qed.

Lemma feq_fle_flip (x y : float) : feq x y = true -> fle y x = true.
Proof.
  unfold feq, fle, SFeqb, SFleb. rewrite (SFcompare_antisym x y).
  destruct (SFcompare x y) as [[ | | ] | ]; simpl; congruence.
Qed.

Lemma flt_fle_flip (x y : float) : flt x y = true -> fle y x = false.
Proof.
  unfold flt, fle, SFltb, SFleb. rewrite (SFcompare_antisym x y).
  destruct (SFcompare x y) as [[ | | ] | ]; simpl; congruence.
Qed.

Lemma fle_strict (x y : float) :
  fle x y = true -> feq x y = false -> flt x y = true.
Proof.
  unfold flt, fle, feq, SFltb, SFleb, SFeqb.
  destruct (SFcompare x y) as [[ | | ] | ]; congruence.
Qed.

Lemma SFcompare_refl (x : float) :
  x <> S754_nan -> SFcompare x x = Some Eq.
Proof.
  destruct x as [s | s | | s m e]; simpl; intros H;
    try (destruct s; reflexivity); try congruence.
  destruct s; rewrite Z.compare_refl, Pos.compare_cont_refl; reflexivity.
Qed.

Lemma fle_refl_l (x y : float) : fle x y = true -> fle x x = true.
Proof.
  unfold fle, SFleb. intros H.
  rewrite SFcompare_refl; [reflexivity | ].
  intros ->. simpl in H. discriminate.
Qed.

Lemma fle_refl_r (x y : float) : fle x y = true -> fle y y = true.
Proof.
  unfold fle, SFleb. intros H.
  rewrite SFcompare_refl; [reflexivity | ].
  intros ->. destruct x; simpl in H; discriminate.
Qed.

End FloatOrder.

(** ** Truncation, floor and ceiling *)

Section Rounding.

Lemma floor_trunc_nonneg (x : float) :
  sign_bit x = false -> floor x = trunc x.
Proof.
  destruct x as [s | s | | s m e]; simpl; try reflexivity.
  intros ->. unfold floor. simpl. f_equal.
  destruct e as [ | p | p].
  - apply Qfloor_Z.
  - apply Qfloor_Z.
  - unfold Qfloor. symmetry. apply Z.quot_div_nonneg; lia.
Qed.

Lemma ceiling_trunc_neg (x : float) :
  sign_bit x = true -> option_map Qceiling (to_Q x) = trunc x.
Proof.
  destruct x as [s | s | | s m e]; simpl; try reflexivity.
  intros ->. simpl. f_equal.
  destruct e as [ | p | p].
  - apply Qceiling_Z.
  - apply Qceiling_Z.
  - unfold Qceiling, Qfloor, Qopp. simpl Qnum. simpl Qden.
    change (Z.neg m) with (- Z.pos m).
    rewrite Z.quot_opp_l by lia. rewrite Z.opp_involutive.
    f_equal. symmetry. apply Z.quot_div_nonneg; lia.
Qed.

Lemma py_int_trunc (x : float) (n : Z) :
  py_int x = Ok n -> trunc x = Some n.
Proof.
  unfold py_int. destruct x; simpl; intros H; inversion H; reflexivity.
Qed.

Lemma py_int_finite (x : float) :
  is_finite x = true -> exists n, py_int x = Ok n /\ trunc x = Some n.
Proof.
  destruct x; simpl; intros H; try discriminate; eexists; split; reflexivity.
Qed.

Lemma trunc_pos_sign (x : float) (n : Z) :
  trunc x = Some n -> 0 < n -> sign_bit x = false.
Proof.
  destruct x as [s | s | | s m e]; simpl; intros H Hn; try discriminate.
  - inversion H. lia.
  - destruct s; [exfalso | reflexivity].
    inversion H as [Hv]. clear H. simpl in Hv.
    destruct e as [ | p | p].
    + lia.
    + lia.
    + change (Z.neg m) with (- Z.pos m) in Hv.
      rewrite Z.quot_opp_l in Hv by lia.
      assert (0 <= Z.pos m ÷ Z.pos (2 ^ p)) by (apply Z.quot_pos; lia).
      lia.
Qed.

(** The constants as binary64 numbers: 7.45e-7, 6.022e23, 0.2 and 1e6. *)
Lemma constants_binary64 :
  SCCM_to_mols = S754_finite false 7036326059475771 (-73) /\
  NA = S754_finite false 8973479270935059 26 /\
  time_per_frame = S754_finite false 7205759403792794 (-55) /\
  time_per_frame = literal 2 10 /\
  max_sites = S754_finite false 8589934592000000 (-33).
Proof. repeat split; vm_compute; reflexivity. Qed.

Lemma digits2_size (m : positive) : digits2_pos m = Pos.size m.
Proof. induction m as [m IH | m IH | ]; simpl; rewrite ?IH; reflexivity. Qed.

Lemma mantissa_bounds (m : positive) :
  2 ^ (Z.pos (digits2_pos m) - 1) <= Z.pos m < 2 ^ Z.pos (digits2_pos m).
Proof.
  rewrite digits2_size.
  pose proof (Pos.size_gt m) as Hgt. pose proof (Pos.size_le m) as Hle.
  apply Pos2Z.pos_lt_pos in Hgt. apply Pos2Z.pos_le_pos in Hle.
  rewrite Pos2Z.inj_pow in Hgt, Hle.
  split; [ | exact Hgt].
  replace (Z.pos (Pos.size m)) with (Z.succ (Z.pos (Pos.size m) - 1)) in Hle
    by lia.
  rewrite Z.pow_succ_r in Hle by lia.
  change (Z.pos m~0) with (2 * Z.pos m) in Hle. lia.
Qed.

Lemma compare_cont_Eq (m k : positive) :
  PosDef.Pos.compare_cont Eq m k = Pos.compare m k.
Proof. reflexivity. Qed.

(** On valid binary64 numbers the test [0 <= s <= 1] of line 94 is the test
    on the real value. *)
Lemma unit_interval (s : float) (q : Q) :
  valid_binary prec emax s = true -> to_Q s = Some q ->
  ((fle (of_Z 0) s && fle s (of_Z 1)) = true <-> (0 <= q <= 1)%Q).
Proof.
  replace (of_Z 0) with (S754_zero false) by (vm_compute; reflexivity).
  replace (of_Z 1) with (S754_finite false 4503599627370496 (-52))
    by (vm_compute; reflexivity).
  unfold fle, SFleb.
  destruct s as [sg | sg | | sg m e]; try discriminate.
  - intros _ H. inversion H. split; [ | reflexivity].
    intros _. split; unfold Qle; simpl; lia.
  - intros Hv H. inversion H as [Hq]. clear H Hq.
    destruct sg.
    + split; [discriminate | ]. intros (H0 & _). exfalso.
      unfold Qle in H0. cbn [cond_Zopp] in H0.
      destruct e; simpl in H0; lia.
    + cbn [valid_binary] in Hv.
      unfold bounded, canonical_mantissa, fexp, SpecFloat.emin in Hv.
      apply andb_true_iff in Hv. destruct Hv as (Hc & _).
      apply Z.eqb_eq in Hc.
      pose proof (mantissa_bounds m) as (Hlo & Hhi).
      cbn [SFcompare andb cond_Zopp].
      rewrite compare_cont_Eq.
      unfold prec, emax in Hc.
      destruct (Z.compare_spec e (-52)) as [He | He | He].
      * subst e. clear Hlo Hhi Hc.
        change (2 ^ 52)%positive with 4503599627370496%positive.
        unfold Qle. cbn [Qnum Qden].
        destruct (Pos.compare_spec m 4503599627370496) as [Hm | Hm | Hm].
        -- subst m. split; intros _; [lia | reflexivity].
        -- apply Pos2Z.pos_lt_pos in Hm.
           split; intros _; [lia | reflexivity].
        -- apply Pos2Z.pos_lt_pos in Hm.
           split; intros H; [discriminate H | lia].
      * split; [intros _ | reflexivity].
        destruct e as [ | e | e]; try lia.
        unfold Qle. cbn [Qnum Qden]. split; [lia | ].
        rewrite Pos2Z.inj_pow.
        assert (Hd : Z.pos (digits2_pos m) <= 53) by lia.
        assert (2 ^ Z.pos (digits2_pos m) <= 2 ^ Z.pos e)
          by (apply Z.pow_le_mono_r; lia).
        lia.
      * split; [discriminate | ]. intros (_ & H1). exfalso.
        assert (Hd : Z.pos (digits2_pos m) = 53) by lia.
        rewrite Hd in Hlo. change (2 ^ (53 - 1)) with 4503599627370496 in Hlo.
        destruct e as [ | e | e]; unfold Qle in H1; cbn [Qnum Qden inject_Z] in H1.
        -- lia.
        -- rewrite Pos2Z.inj_pow in H1.
           assert (1 <= 2 ^ Z.pos e)
             by (apply (Z.pow_le_mono_r 2 0 (Z.pos e)); lia).
           nia.
        -- rewrite Pos2Z.inj_pow in H1.
           assert (2 ^ Z.pos e <= 2 ^ 51) by (apply Z.pow_le_mono_r; lia).
           change (2 ^ 51) with 2251799813685248 in *. lia.
Qed.

Lemma unit_interval_not_finite (s : float) :
  is_finite s = false -> (fle (of_Z 0) s && fle s (of_Z 1)) = false.
Proof.
  replace (of_Z 0) with (S754_zero false) by (vm_compute; reflexivity).
  replace (of_Z 1) with (S754_finite false 4503599627370496 (-52))
    by (vm_compute; reflexivity).
  destruct s as [sg | sg | | sg m e]; try discriminate; intros _.
  - destruct sg; reflexivity.
  - reflexivity.
Qed.

End Rounding.

(** ** Binning *)

Section Binning.

Lemma searchsorted_split (e0 : float) (mid : list float) (el x : float) :
  searchsorted_right (e0 :: mid ++ [el]) x
  = (Nat.b2n (fle e0 x) + length (filter (fun e => fle e x) mid)
     + Nat.b2n (fle el x))%nat.
Proof.
  unfold searchsorted_right. simpl filter.
  rewrite filter_app, (Nat.add_comm (Nat.b2n (fle e0 x))). simpl filter.
  destruct (fle e0 x), (fle el x); simpl; rewrite ?length_app; simpl; lia.
Qed.

Lemma last_of_edges (e0 : float) (mid : list float) (el d : float) :
  last (e0 :: mid ++ [el]) d = el.
Proof. rewrite app_comm_cons. apply last_last. Qed.

Lemma filter_no_longer {A : Type} (f : A -> bool) (l : list A) :
  (length (filter f l) <= length l)%nat.
Proof.
  induction l as [ | a l IH]; simpl; [lia | ].
  destruct (f a); simpl; lia.
Qed.

(** A coordinate between the first and the last edge gets a bin number of
    the grid, never an outlier bin. *)
Lemma bin_number_in_core (e0 : float) (mid : list float) (el x : float) :
  fle e0 x = true -> fle x el = true ->
  (1 <= bin_number (e0 :: mid ++ [el]) x <= S (length mid))%nat.
Proof.
  intros Hlo Hhi. unfold bin_number.
  rewrite last_of_edges, searchsorted_split, Hlo.
  pose proof (filter_no_longer (fun e => fle e x) mid) as Hmid.
  destruct (feq x el) eqn:Heq.
  - rewrite (feq_fle_flip _ _ Heq). simpl. lia.
  - rewrite (flt_fle_flip _ _ (fle_strict _ _ Hhi Heq)). simpl. lia.
Qed.

Lemma x_edges_shape :
  exists mid, length mid = 49%nat
              /\ x_edges = of_Z 0 :: mid ++ [of_Z surface_length].
Proof.
  exists (firstn 49 (tl x_edges)). split; vm_compute; reflexivity.
Qed.

(** The edges increase strictly, so the right insertion point of [x] is the
    number of edges that are at most [x]. *)
Lemma edges_increasing :
  forallb (fun pr => flt (fst pr) (snd pr)) (combine x_edges (tl x_edges))
  = true
  /\ y_edges = x_edges.
Proof. split; vm_compute; reflexivity. Qed.

Lemma y_edges_shape :
  exists mid, length mid = 49%nat
              /\ y_edges = of_Z 0 :: mid ++ [of_Z surface_width].
Proof.
  exists (firstn 49 (tl y_edges)). split; vm_compute; reflexivity.
Qed.

Lemma on_surface_in_core (p : point) :
  on_surface p ->
  in_core (bin_number x_edges (px p), bin_number y_edges (py p)) = true.
Proof.
  intros (Hx0 & Hx1 & Hy0 & Hy1 & _).
  destruct x_edges_shape as (mx & Lx & ->).
  destruct y_edges_shape as (my & Ly & ->).
  pose proof (bin_number_in_core _ mx _ _ Hx0 Hx1) as Bx.
  pose proof (bin_number_in_core _ my _ _ Hy0 Hy1) as By.
  rewrite Lx in Bx. rewrite Ly in By.
  unfold in_core, bins. cbn [fst snd].
  repeat rewrite andb_true_iff. repeat rewrite Nat.leb_le. lia.
Qed.

Lemma sum_over_plus (f g : nat -> nat) (l : list nat) :
  sum_over (fun i => (f i + g i)%nat) l = (sum_over f l + sum_over g l)%nat.
Proof.
  unfold sum_over. induction l as [ | a l IH]; simpl; [reflexivity | ].
  rewrite IH. lia.
Qed.

Lemma sum_over_scale (c : nat) (f : nat -> nat) (l : list nat) :
  sum_over (fun i => (c * f i)%nat) l = (c * sum_over f l)%nat.
Proof.
  unfold sum_over. induction l as [ | a l IH]; simpl; [lia | ].
  rewrite IH. lia.
Qed.

Lemma sum_over_ext (f g : nat -> nat) (l : list nat) :
  (forall i, f i = g i) -> sum_over f l = sum_over g l.
Proof.
  intros H. unfold sum_over. induction l as [ | a l IH]; simpl;
    [reflexivity | ]. rewrite IH, H. reflexivity.
Qed.

Lemma sum_over_zero (l : list nat) : sum_over (fun _ => 0%nat) l = 0%nat.
Proof.
  unfold sum_over. induction l as [ | a l IH]; simpl; [reflexivity | ].
  exact IH.
Qed.

Lemma sum_over_hit (v n : nat) :
  sum_over (fun j => Nat.b2n (Nat.eqb v (S j))) (seq 0 n)
  = Nat.b2n ((1 <=? v) && (v <=? n))%nat.
Proof.
  induction n as [ | n IH].
  - simpl. destruct v; reflexivity.
  - rewrite seq_S. unfold sum_over in *.
    rewrite map_app, fold_right_app. simpl.
    assert (Hshift : forall (l : list nat) (a : nat),
               fold_right Nat.add a l = (fold_right Nat.add 0 l + a)%nat).
    { induction l as [ | b l IHl]; intros a; simpl; [lia | ].
      rewrite IHl. lia. }
    rewrite Hshift, IH.
    destruct (Nat.eqb_spec v (S n)) as [-> | Hne].
    + destruct (Nat.leb_spec 1 (S n)), (Nat.leb_spec (S n) n),
        (Nat.leb_spec (S n) (S n)); simpl; lia.
    + destruct (Nat.leb_spec 1 v), (Nat.leb_spec v n),
        (Nat.leb_spec v (S n)); destruct v; simpl; lia.
Qed.

Lemma grid_sum_rows (g : nat -> nat -> nat) (rows cols : list nat) :
  grid_sum (map (fun i => map (g i) cols) rows)
  = sum_over (fun i => sum_over (g i) cols) rows.
Proof.
  unfold sum_over, grid_sum. induction rows as [ | i rows IH]; simpl;
    [reflexivity | ]. rewrite IH. reflexivity.
Qed.

(** The bins of the grid sum to the number of points whose two bin numbers
    are not outliers. *)
Lemma grid_sum_counts_core (xy : list (nat * nat)) :
  grid_sum (map (fun i => map (fun j => bincount xy (S i) (S j))
                            (seq 0 bins)) (seq 0 bins))
  = length (filter in_core xy).
Proof.
  rewrite grid_sum_rows.
  induction xy as [ | c xy IH].
  - rewrite (sum_over_ext _ (fun _ => 0%nat)).
    + apply sum_over_zero.
    + intros i. exact (sum_over_zero (seq 0 bins)).
  - transitivity
      (sum_over (fun i => sum_over (fun j =>
           Nat.b2n (Nat.eqb (fst c) (S i)) * Nat.b2n (Nat.eqb (snd c) (S j))
           + bincount xy (S i) (S j)) (seq 0 bins)) (seq 0 bins))%nat.
    { apply sum_over_ext. intros i. apply sum_over_ext. intros j.
      unfold bincount. simpl filter.
      destruct (Nat.eqb (fst c) (S i)), (Nat.eqb (snd c) (S j)); reflexivity. }
    rewrite (sum_over_ext _ (fun i =>
               Nat.b2n (Nat.eqb (fst c) (S i))
               * sum_over (fun j => Nat.b2n (Nat.eqb (snd c) (S j))) (seq 0 bins)
               + sum_over (fun j => bincount xy (S i) (S j)) (seq 0 bins))%nat).
    2:{ intros i. rewrite sum_over_plus, sum_over_scale. reflexivity. }
    rewrite sum_over_plus, IH.
    rewrite (sum_over_ext _ (fun i =>
               sum_over (fun j => Nat.b2n (Nat.eqb (snd c) (S j))) (seq 0 bins)
               * Nat.b2n (Nat.eqb (fst c) (S i)))%nat)
      by (intros i; apply Nat.mul_comm).
    rewrite sum_over_scale, !sum_over_hit.
    simpl filter. unfold in_core at 2.
    destruct ((1 <=? fst c) && (fst c <=? bins))%nat,
             ((1 <=? snd c) && (snd c <=? bins))%nat; simpl; lia.
Qed.

Lemma grid_sum_on_surface (pts : list point) :
  Forall on_surface pts -> grid_sum (histogram2d pts) = length pts.
Proof.
  intros H. unfold histogram2d. cbv zeta. rewrite grid_sum_counts_core.
  unfold bin_numbers. induction H as [ | p pts Hp Hpts IH]; simpl;
    [reflexivity | ].
  rewrite (on_surface_in_core p Hp). simpl. rewrite IH. reflexivity.
Qed.

End Binning.

(** ** One frame *)

Section Frame.

Variable np_exp : float -> float.
Variable rng : Type.
Variable random_uniform :
  float -> float -> nat -> rng -> (nat -> float) * rng.

Lemma rows_length (xs ys : nat -> float) (zs : nat -> Z) (m : nat) :
  length (rows xs ys zs m) = m.
Proof. unfold rows. rewrite length_map, length_seq. reflexivity. Qed.

Lemma draw_length (m : nat) (g : rng) :
  length (fst (draw random_uniform m g)) = m.
Proof.
  unfold draw.
  destruct (random_uniform (of_Z 0) (of_Z surface_length) m g) as [xs g1].
  destruct (random_uniform (of_Z 0) (of_Z surface_width) m g1) as [ys g2].
  simpl. apply rows_length.
Qed.

Lemma deposit_Next (n : Z) (st st' : state rng) :
  deposit random_uniform n st = Next st' ->
  0 <= n /\
  st' = {| adsorbed_positions :=
             adsorbed_positions st
               ++ fst (draw random_uniform (Z.to_nat n) (generator st));
           time_points_1s := time_points_1s st;
           ads_counts_1s := ads_counts_1s st;
           resistance_1s := resistance_1s st;
           current_second := current_second st;
           filenames := filenames st;
           generator :=
             snd (draw random_uniform (Z.to_nat n) (generator st)) |}.
Proof.
  unfold deposit. destruct (Z.ltb_spec n 0) as [Hn | Hn]; [discriminate | ].
  destruct (draw random_uniform (Z.to_nat n) (generator st)) as [new g2].
  intros H. inversion H. split; [lia | reflexivity].
Qed.

Lemma deposit_total (n : Z) (st : state rng) :
  0 <= n -> exists st', deposit random_uniform n st = Next st'.
Proof.
  intros Hn. unfold deposit.
  destruct (Z.ltb_spec n 0) as [Hneg | _]; [lia | ].
  destruct (draw random_uniform (Z.to_nat n) (generator st)) as [new g2].
  eexists. reflexivity.
Qed.

Lemma deposit_negative (n : Z) (st : state rng) :
  n < 0 -> deposit random_uniform n st = Abort ValueError st.
Proof.
  intros Hn. unfold deposit.
  destruct (Z.ltb_spec n 0) as [_ | Hpos]; [reflexivity | lia].
Qed.

(** What [sample] leaves behind when it falls through. *)
Lemma sample_Next (p : params) (t : nat) (st st' : state rng) :
  sample np_exp p t st = Next st' ->
  adsorbed_positions st' = adsorbed_positions st /\
  filenames st' = filenames st /\
  generator st' = generator st /\
  if sample_due t (current_second st) then
    let count := Z.of_nat (length (adsorbed_positions st)) in
    exists total,
      py_float count = Ok total /\
      current_second st' = current_second st + 1 /\
      time_points_1s st' = time_points_1s st ++ [current_second st + 1] /\
      ads_counts_1s st' = ads_counts_1s st ++ [count] /\
      resistance_1s st' =
        resistance_1s st ++ [resistance_of np_exp p (coverage_of total)]
  else st' = st.
Proof.
  unfold sample. destruct (sample_due t (current_second st)).
  - destruct (py_float (Z.of_nat (length (adsorbed_positions st))))
      as [total | e] eqn:Hf; [ | discriminate].
    intros H. inversion H. simpl. repeat split.
    exists total. repeat split.
  - intros H. inversion H. repeat split.
Qed.

Lemma render_Next (t : nat) (st st' : state rng) :
  render t st = Next st' ->
  adsorbed_positions st <> [] /\
  st' = {| adsorbed_positions := adsorbed_positions st;
           time_points_1s := time_points_1s st;
           ads_counts_1s := ads_counts_1s st;
           resistance_1s := resistance_1s st;
           current_second := current_second st;
           filenames :=
             filenames st ++ [(t, histogram2d (adsorbed_positions st))];
           generator := generator st |}.
Proof.
  unfold render, rasterize.
  destruct (adsorbed_positions st) as [ | a l]; [discriminate | ].
  intros H. inversion H. split; [discriminate | reflexivity].
Qed.

Lemma and_then_Next (s : step rng) (f : state rng -> step rng)
  (st' : state rng) :
  and_then s f = Next st' -> exists st, s = Next st /\ f st = Next st'.
Proof.
  destruct s as [st | e st]; simpl; [ | discriminate].
  intros H. exists st. split; [reflexivity | exact H].
Qed.

(** The effect of one frame that runs to its end. *)
Lemma frame_Next (p : params) (budget : Z) (mult : float) (t : nat)
  (st st' : state rng) :
  frame np_exp random_uniform p budget mult t st = Next st' ->
  exists n,
    effective_molecules budget mult = Ok n /\ 0 <= n /\
    let cloud := adsorbed_positions st
                   ++ fst (draw random_uniform (Z.to_nat n) (generator st)) in
    cloud <> [] /\
    adsorbed_positions st' = cloud /\
    filenames st' = filenames st ++ [(t, histogram2d cloud)] /\
    if sample_due t (current_second st) then
      let count := Z.of_nat (length cloud) in
      exists total,
        py_float count = Ok total /\
        current_second st' = current_second st + 1 /\
        time_points_1s st' = time_points_1s st ++ [current_second st + 1] /\
        ads_counts_1s st' = ads_counts_1s st ++ [count] /\
        resistance_1s st' =
          resistance_1s st ++ [resistance_of np_exp p (coverage_of total)]
    else
      current_second st' = current_second st /\
      time_points_1s st' = time_points_1s st /\
      ads_counts_1s st' = ads_counts_1s st /\
      resistance_1s st' = resistance_1s st.
Proof.
  unfold frame.
  destruct (effective_molecules budget mult) as [n | e]; [ | discriminate].
  intros H. exists n.
  apply and_then_Next in H. destruct H as (s2 & H & Hr).
  apply and_then_Next in H. destruct H as (s1 & Hd & Hs).
  apply deposit_Next in Hd. destruct Hd as (Hn & ->).
  apply sample_Next in Hs. simpl in Hs.
  destruct Hs as (Hc & Hf & Hg & Hs).
  apply render_Next in Hr. destruct Hr as (Hne & ->). simpl.
  rewrite Hc in *. rewrite Hf.
  repeat split; try assumption.
  destruct (sample_due t (current_second st)).
  - exact Hs.
  - rewrite Hs. simpl. repeat split.
Qed.

End Frame.

(** ** The whole loop *)

Section Run.

Variable np_exp : float -> float.
Variable rng : Type.
Variable random_uniform :
  float -> float -> nat -> rng -> (nat -> float) * rng.

(** The documented contract of [numpy.random.uniform]: every sample lies
    within the closed interval (the upper end can be reached through
    rounding). *)
Hypothesis uniform_range :
  forall lo hi n g i,
    fle lo hi = true -> (i < n)%nat ->
    fle lo (fst (random_uniform lo hi n g) i) = true
    /\ fle (fst (random_uniform lo hi n g) i) hi = true.

Variable p : params.
Variable budget : Z.
Variable mult : float.

Local Abbreviation frames := (run_frames np_exp random_uniform p budget mult).
Local Abbreviation frame_at := (frame np_exp random_uniform p budget mult).

Lemma and_then_Next_id (s : step rng) : and_then s Next = s.
Proof. destruct s; reflexivity. Qed.

Lemma and_then_assoc (s : step rng) (f h : state rng -> step rng) :
  and_then (and_then s f) h = and_then s (fun st => and_then (f st) h).
Proof. destruct s; reflexivity. Qed.

Lemma run_frames_app (l1 l2 : list nat) (st : state rng) :
  frames (l1 ++ l2) st = and_then (frames l1 st) (frames l2).
Proof.
  revert st. induction l1 as [ | t l1 IH]; intros st; simpl;
    [reflexivity | ].
  rewrite and_then_assoc.
  destruct (frame_at t st) as [st1 | e st1]; simpl; [apply IH | reflexivity].
Qed.

Lemma run_frames_snoc (m : nat) (st : state rng) :
  frames (seq 0 (S m)) st = and_then (frames (seq 0 m) st) (frame_at m).
Proof.
  rewrite seq_S, run_frames_app. simpl.
  destruct (frames (seq 0 m) st) as [st1 | e st1]; simpl;
    [apply and_then_Next_id | reflexivity].
Qed.

(** A loop that reaches the end of frame [m' - 1] has reached the end of
    every earlier frame. *)
Lemma run_frames_prefix (m m' : nat) (st0 st' : state rng) :
  (m <= m')%nat -> frames (seq 0 m') st0 = Next st' ->
  exists st, frames (seq 0 m) st0 = Next st.
Proof.
  intros Hle H. replace m' with (m + (m' - m))%nat in H by lia.
  rewrite seq_app, run_frames_app in H.
  apply and_then_Next in H. destruct H as (st & H & _).
  exists st. exact H.
Qed.

(** *** The sampling schedule *)

Lemma schedule_table :
  forallb (fun m => Bool.eqb (sample_due m (Z.of_nat (seconds_after m)))
                             (Nat.eqb (S m mod 5) 0))
          (seq 0 n_frames) = true.
Proof. vm_compute. reflexivity. Qed.

Lemma schedule (m : nat) :
  (m < n_frames)%nat ->
  sample_due m (Z.of_nat (seconds_after m)) = Nat.eqb (S m mod 5) 0.
Proof.
  intros Hm. pose proof schedule_table as T.
  rewrite forallb_forall in T. apply eqb_prop. apply T.
  apply in_seq. lia.
Qed.

Lemma seconds_after_tick (m : nat) :
  (S m mod 5 = 0)%nat ->
  seconds_after (S m) = S (seconds_after m)
  /\ S m = (5 * S (seconds_after m))%nat.
Proof.
  unfold seconds_after. intros H.
  pose proof (Nat.div_mod_eq (S m) 5) as E1.
  pose proof (Nat.div_mod_eq m 5) as E2.
  pose proof (Nat.mod_upper_bound m 5) as B2.
  rewrite H in E1. nia.
Qed.

Lemma seconds_after_hold (m : nat) :
  (S m mod 5 <> 0)%nat -> seconds_after (S m) = seconds_after m.
Proof.
  unfold seconds_after. intros H.
  pose proof (Nat.div_mod_eq (S m) 5) as E1.
  pose proof (Nat.div_mod_eq m 5) as E2.
  pose proof (Nat.mod_upper_bound m 5) as B2.
  pose proof (Nat.mod_upper_bound (S m) 5) as B1.
  nia.
Qed.

(** *** Counts and samples *)

Lemma counted_init (n : Z) (g : rng) : counted np_exp p n 0 (init_state g).
Proof. repeat split. Qed.

Lemma counted_step (n : Z) (m : nat) (st st' : state rng) :
  effective_molecules budget mult = Ok n ->
  (m < n_frames)%nat ->
  counted np_exp p n m st ->
  frame_at m st = Next st' ->
  counted np_exp p n (S m) st'.
Proof.
  intros He Hm (Hlen & Hsec & Htp & Hac & Hres & Hfn) Hf.
  apply frame_Next in Hf. destruct Hf as (n' & He' & Hn & Hf).
  rewrite He in He'. inversion He'. subst n'. clear He'.
  cbv zeta in Hf. destruct Hf as (_ & Hcloud & Hfiles & Hs).
  assert (Hlen' : length (adsorbed_positions st') = (S m * Z.to_nat n)%nat).
  { rewrite Hcloud, length_app, draw_length, Hlen. simpl. lia. }
  rewrite <- Hcloud in Hs. rewrite Hsec, (schedule m Hm) in Hs.
  assert (Hfn' : map fst (filenames st') = seq 0 (S m)).
  { rewrite Hfiles, map_app, Hfn, seq_S. reflexivity. }
  destruct (Nat.eqb_spec (S m mod 5) 0) as [Ht | Ht].
  - destruct (seconds_after_tick m Ht) as (Hk & Hm5).
    destruct Hs as (total & Hfl & Hsec' & Htp' & Hac' & Hres').
    assert (Hcount : Z.of_nat (length (adsorbed_positions st'))
                     = Z.of_nat (5 * S (seconds_after m) * Z.to_nat n)).
    { rewrite Hlen', Hm5. reflexivity. }
    unfold py_float in Hfl. rewrite Hcount in Hfl.
    destruct (is_finite _) in Hfl; [ | discriminate].
    inversion Hfl. subst total. clear Hfl.
    unfold counted. rewrite Hk, !seq_S, !map_app. simpl map.
    rewrite Hsec', Htp', Hac', Hres', Htp, Hac, Hres, Hcount.
    replace (Z.of_nat (seconds_after m) + 1)
      with (Z.of_nat (S (seconds_after m))) by lia.
    repeat split; try assumption.
    rewrite <- seq_S. exact Hfn'.
  - destruct Hs as (Hsec' & Htp' & Hac' & Hres').
    unfold counted. rewrite (seconds_after_hold m Ht).
    rewrite Hsec', Htp', Hac', Hres'. repeat split; assumption.
Qed.

Lemma counted_after (n : Z) (g : rng) (m : nat) (st : state rng) :
  effective_molecules budget mult = Ok n ->
  (m <= n_frames)%nat ->
  frames (seq 0 m) (init_state g) = Next st ->
  counted np_exp p n m st.
Proof.
  intros He. revert st. induction m as [ | m IH]; intros st Hm H.
  - simpl in H. inversion H. apply counted_init.
  - rewrite run_frames_snoc in H. apply and_then_Next in H.
    destruct H as (st0 & H0 & Hf).
    apply (counted_step n m st0 st He); [lia | | exact Hf].
    apply IH; [lia | exact H0].
Qed.

(** *** Positions *)

Lemma draw_on_surface (m : nat) (g : rng) :
  Forall on_surface (fst (draw random_uniform m g)).
Proof.
  unfold draw.
  pose proof (fun i => uniform_range (of_Z 0) (of_Z surface_length) m g i
                         eq_refl) as Rx.
  destruct (random_uniform (of_Z 0) (of_Z surface_length) m g) as [xs g1].
  pose proof (fun i => uniform_range (of_Z 0) (of_Z surface_width) m g1 i
                         eq_refl) as Ry.
  destruct (random_uniform (of_Z 0) (of_Z surface_width) m g1) as [ys g2].
  simpl in *. unfold rows. apply Forall_forall. intros q Hq.
  apply in_map_iff in Hq. destruct Hq as (i & <- & Hi).
  apply in_seq in Hi.
  destruct (Rx i ltac:(lia)) as (Hx0 & Hx1).
  destruct (Ry i ltac:(lia)) as (Hy0 & Hy1).
  unfold on_surface. simpl. repeat split; assumption.
Qed.

Lemma frame_on_surface (t : nat) (st : state rng) :
  Forall on_surface (adsorbed_positions st) ->
  Forall on_surface (adsorbed_positions (locals (frame_at t st))).
Proof.
  intros H. unfold frame.
  destruct (effective_molecules budget mult) as [n | e]; [ | exact H].
  unfold deposit. destruct (n <? 0); [exact H | ].
  pose proof (draw_on_surface (Z.to_nat n) (generator st)) as Hd.
  destruct (draw random_uniform (Z.to_nat n) (generator st)) as [new g2].
  simpl in Hd.
  assert (Hall : Forall on_surface (adsorbed_positions st ++ new))
    by (apply Forall_app; split; assumption).
  unfold and_then, sample, render, rasterize. simpl.
  destruct (sample_due t (current_second st)); simpl.
  - destruct (py_float _); simpl; [ | exact Hall].
    destruct (adsorbed_positions st ++ new); simpl; exact Hall.
  - destruct (adsorbed_positions st ++ new); simpl; exact Hall.
Qed.

Lemma run_frames_on_surface (ts : list nat) (st : state rng) :
  Forall on_surface (adsorbed_positions st) ->
  Forall on_surface (adsorbed_positions (locals (frames ts st))).
Proof.
  revert st. induction ts as [ | t ts IH]; intros st H; simpl; [exact H | ].
  pose proof (frame_on_surface t st H) as Hf.
  destruct (frame_at t st) as [st1 | e st1]; simpl in *;
    [apply IH; exact Hf | exact Hf].
Qed.

(** *** Runs that stop on the first frame *)

Lemma sample_not_due_at_start : sample_due 0 0 = false.
Proof. vm_compute. reflexivity. Qed.

Lemma first_frame_empty (g : rng) :
  effective_molecules budget mult = Ok 0 ->
  frame_at 0%nat (init_state g)
  = Abort IndexError (init_state (snd (draw random_uniform 0 g))).
Proof.
  intros He. unfold frame. rewrite He. unfold deposit. simpl Z.ltb.
  cbv iota. simpl Z.to_nat. simpl generator.
  pose proof (draw_length _ random_uniform 0 g) as L.
  destruct (draw random_uniform 0 g) as [new g2]. simpl in L.
  destruct new as [ | q new]; [ | discriminate].
  unfold and_then, sample. cbn -[sample_due].
  rewrite sample_not_due_at_start. reflexivity.
Qed.

Lemma first_frame_negative (n : Z) (g : rng) :
  effective_molecules budget mult = Ok n -> n < 0 ->
  frame_at 0%nat (init_state g) = Abort ValueError (init_state g).
Proof.
  intros He Hn. unfold frame. rewrite He, (deposit_negative _ _ _ _ Hn).
  reflexivity.
Qed.

(** *** Runs that reach the end *)

Lemma sample_total (t : nat) (st : state rng) :
  (sample_due t (current_second st) = true ->
   is_finite (of_Z (Z.of_nat (length (adsorbed_positions st)))) = true) ->
  exists st', sample np_exp p t st = Next st'.
Proof.
  intros H. unfold sample, py_float.
  destruct (sample_due t (current_second st)).
  - rewrite (H eq_refl). eexists. reflexivity.
  - eexists. reflexivity.
Qed.

Lemma sampled_count_converts (n : Z) (s : nat) :
  sampled_counts_convert n = true -> (1 <= s <= 10)%nat ->
  is_finite (of_Z (Z.of_nat (5 * s * Z.to_nat n))) = true.
Proof.
  unfold sampled_counts_convert. rewrite forallb_forall. intros H Hs.
  apply (H s). apply in_seq. lia.
Qed.

Lemma frame_total (n : Z) (m : nat) (st : state rng) :
  effective_molecules budget mult = Ok n -> 0 < n ->
  sampled_counts_convert n = true ->
  (m < n_frames)%nat ->
  counted np_exp p n m st ->
  exists st', frame_at m st = Next st'.
Proof.
  intros He Hn Hconv Hm (Hlen & Hsec & _).
  unfold frame. rewrite He.
  destruct (deposit_total _ random_uniform n st) as (st1 & Hd); [lia | ].
  rewrite Hd. simpl and_then.
  apply deposit_Next in Hd. destruct Hd as (_ & Hst1).
  assert (Hlen1 : length (adsorbed_positions st1) = (S m * Z.to_nat n)%nat).
  { rewrite Hst1. simpl. rewrite length_app, draw_length, Hlen. lia. }
  assert (Hsec1 : current_second st1 = Z.of_nat (seconds_after m)).
  { rewrite Hst1. simpl. exact Hsec. }
  destruct (sample_total m st1) as (st2 & Hs).
  { rewrite Hsec1, (schedule m Hm), Hlen1. intros Hdue.
    apply Nat.eqb_eq in Hdue.
    destruct (seconds_after_tick m Hdue) as (_ & Hm5). rewrite Hm5.
    apply sampled_count_converts; [exact Hconv | ].
    unfold n_frames in Hm. lia. }
  rewrite Hs. simpl and_then.
  apply sample_Next in Hs. destruct Hs as (Hc2 & _).
  unfold render, rasterize. rewrite Hc2.
  destruct (adsorbed_positions st1) as [ | q l].
  - simpl in Hlen1. nia.
  - eexists. reflexivity.
Qed.

Lemma run_frames_total (n : Z) (g : rng) (m : nat) :
  effective_molecules budget mult = Ok n -> 0 < n ->
  sampled_counts_convert n = true ->
  (m <= n_frames)%nat ->
  exists st, frames (seq 0 m) (init_state g) = Next st.
Proof.
  intros He Hn Hconv. induction m as [ | m IH]; intros Hm.
  - eexists. reflexivity.
  - destruct IH as (st & H); [lia | ].
    pose proof (counted_after n g m st He ltac:(lia) H) as Hc.
    destruct (frame_total n m st He Hn Hconv ltac:(lia) Hc) as (st' & Hf).
    exists st'. rewrite run_frames_snoc, H. exact Hf.
Qed.

(** A run that reaches the end deposits at least one molecule per frame. *)
Lemma completed_count_positive (n : Z) (m : nat) (st0 st : state rng) :
  effective_molecules budget mult = Ok n ->
  adsorbed_positions st0 = [] ->
  frames (seq 0 (S m)) st0 = Next st -> 0 < n.
Proof.
  intros He H0 H. simpl in H. apply and_then_Next in H.
  destruct H as (st1 & Hf & _).
  apply frame_Next in Hf. destruct Hf as (n' & He' & Hn & Hf).
  rewrite He in He'. inversion He'. subst n'. cbv zeta in Hf.
  destruct Hf as (Hne & _). rewrite H0 in Hne. simpl in Hne.
  destruct (Z.eq_dec n 0) as [-> | Hnz]; [ | lia].
  exfalso. apply Hne.
  pose proof (draw_length _ random_uniform 0 (generator st0)) as L.
  simpl Z.to_nat. destruct (fst (draw random_uniform 0 (generator st0)));
    [reflexivity | discriminate].
Qed.

End Run.

(** ** From [run_simulation] to its loop *)

Section Outcome.

Variable np_exp : float -> float.
Variable rng : Type.
Variable random_uniform :
  float -> float -> nat -> rng -> (nat -> float) * rng.

Lemma run_simulation_Completed (i : inputs) (g : rng) (status : string)
  (st : state rng) :
  run_simulation np_exp random_uniform i g = Completed status st ->
  exists p budget,
    validate i = Some p /\ molecule_per_frame p = Ok budget /\
    run_frames np_exp random_uniform p budget
      (adsorption_multiplier (surface_type i)) (seq 0 n_frames) (init_state g)
    = Next st /\
    status = completed_status.
Proof.
  unfold run_simulation, simulate.
  destruct (validate i) as [p | ] eqn:Hv; [ | discriminate].
  destruct (molecule_per_frame p) as [budget | e] eqn:Hb; [ | discriminate].
  destruct (run_frames _ _ _ _ _ _ _) as [st1 | e st1] eqn:H;
    [ | discriminate].
  intros E. inversion E. subst. exists p, budget.
  repeat split; try reflexivity; assumption.
Qed.

Lemma completed_effective (p : params) (budget : Z) (mult : float) (g : rng)
  (st : state rng) :
  run_frames np_exp random_uniform p budget mult (seq 0 n_frames)
    (init_state g) = Next st ->
  exists n, effective_molecules budget mult = Ok n /\ 0 < n
            /\ floor_count budget mult = Some n.
Proof.
  intros H.
  assert (He : exists n, effective_molecules budget mult = Ok n).
  { unfold n_frames in H. simpl in H. apply and_then_Next in H.
    destruct H as (st1 & Hf & _). apply frame_Next in Hf.
    destruct Hf as (n & He & _). exists n. exact He. }
  destruct He as (n & He). exists n.
  assert (Hn : 0 < n).
  { apply (completed_count_positive np_exp rng random_uniform p budget mult
             n 49 (init_state g) st He eq_refl H). }
  repeat split; try assumption.
  unfold floor_count. unfold effective_molecules in He.
  destruct (effective_raw budget mult) as [x | e]; [ | discriminate].
  apply py_int_trunc in He.
  rewrite (floor_trunc_nonneg x (trunc_pos_sign x n He Hn)). exact He.
Qed.

Lemma simulate_zero_count (surface : string) (p : params) (budget : Z)
  (g : rng) :
  molecule_per_frame p = Ok budget ->
  effective_molecules budget (adsorption_multiplier surface) = Ok 0 ->
  simulate np_exp random_uniform surface p g
  = Crashed running_status IndexError
      (init_state (snd (draw random_uniform 0 g))).
Proof.
  intros Hb He. unfold simulate. rewrite Hb.
  unfold n_frames. simpl seq. cbn [run_frames].
  rewrite (first_frame_empty np_exp rng random_uniform p budget _ g He).
  reflexivity.
Qed.

Lemma simulate_negative_count (surface : string) (p : params) (budget n : Z)
  (g : rng) :
  molecule_per_frame p = Ok budget ->
  effective_molecules budget (adsorption_multiplier surface) = Ok n ->
  n < 0 ->
  simulate np_exp random_uniform surface p g
  = Crashed running_status ValueError (init_state g).
Proof.
  intros Hb He Hn. unfold simulate. rewrite Hb.
  unfold n_frames. simpl seq. cbn [run_frames].
  rewrite (first_frame_negative np_exp rng random_uniform p budget _ n g He Hn).
  reflexivity.
Qed.

(** A validated input with a positive per-frame count, none of whose sampled
    totals overflows, runs through all frames. *)
Lemma run_simulation_completes (i : inputs) (p : params) (budget n : Z)
  (g : rng) :
  validate i = Some p ->
  molecule_per_frame p = Ok budget ->
  effective_molecules budget (adsorption_multiplier (surface_type i)) = Ok n ->
  0 < n ->
  sampled_counts_convert n = true ->
  exists st,
    run_simulation np_exp random_uniform i g = Completed completed_status st.
Proof.
  intros Hv Hb He Hn Hc. unfold run_simulation, simulate. rewrite Hv, Hb.
  destruct (run_frames_total np_exp rng random_uniform p budget _ n g
              n_frames He Hn Hc (Nat.le_refl _)) as (st & H).
  exists st. rewrite H. reflexivity.
Qed.

End Outcome.

(** ** The closed instances *)

Lemma alternating_range (lo hi : float) (n g i : nat) :
  fle lo hi = true -> (i < n)%nat ->
  fle lo (fst (Demo.alternating lo hi n g) i) = true
  /\ fle (fst (Demo.alternating lo hi n g) i) hi = true.
Proof.
  intros H _. unfold Demo.alternating. simpl.
  destruct (Nat.even (g + i)); split;
    eauto using fle_refl_l, fle_refl_r.
Qed.

Lemma faint_flow_completes :
  exists st,
    run_simulation Demo.taylor_exp Demo.alternating Demo.faint_flow 0%nat
    = Completed completed_status st.
Proof.
  apply (run_simulation_completes Demo.taylor_exp nat Demo.alternating
           Demo.faint_flow Demo.faint_params 1 2 0%nat);
    vm_compute; reflexivity.
Qed.

(** * The claims *)

Section Claims.

Variable np_exp : float -> float.
Variable rng : Type.
Variable random_uniform :
  float -> float -> nat -> rng -> (nat -> float) * rng.

Local Abbreviation run_simulation' := (run_simulation np_exp random_uniform).
Local Abbreviation run_frames' := (run_frames np_exp random_uniform).

(** C1.  A validated input whose per-frame count is 0 -- flow rate 0,
    sticking coefficient 1 -- does not run to the end: the first frame
    deposits nothing, [np.array] of the empty list is one-dimensional, and
    [ads[:,0]] raises [IndexError] before any frame is rasterized or any
    sample recorded.  The run stops with the locals still empty. *)
Theorem zero_count_run_raises_index_error (g : rng) :
  validate Demo.no_flow <> None /\
  run_simulation' Demo.no_flow g
  = Crashed running_status IndexError
      (init_state (snd (draw random_uniform 0 g))).
Proof.
  split; [vm_compute; discriminate | ].
  unfold run_simulation.
  change (validate Demo.no_flow)
    with (Some {| sccm := of_Z 0; stick_coeff := of_Z 1;
                  r0 := of_Z 1000; k := of_Z 2 |}).
  apply (simulate_zero_count np_exp rng random_uniform _ _ 0);
    vm_compute; reflexivity.
Qed.

(** C10.  Flow rate -1 with sticking coefficient 1 passes validation, gives
    a negative per-frame count, and the run stops on the first frame in the
    deposition step: [numpy.random.uniform] is asked for a negative number
    of samples and raises [ValueError], which nothing catches.  The run is
    neither rejected nor completed. *)
Theorem negative_count_run_raises_value_error :
  exists (i : inputs) (p : params) (budget n : Z),
    validate i = Some p /\
    molecule_per_frame p = Ok budget /\
    effective_molecules budget (adsorption_multiplier (surface_type i)) = Ok n /\
    n < 0 /\
    forall g : rng,
      run_simulation' i g = Crashed running_status ValueError (init_state g).
Proof.
  exists Demo.reverse_flow,
         {| sccm := of_Z (-1); stick_coeff := of_Z 1;
            r0 := of_Z 1000; k := of_Z 2 |},
         (-89727800000000000), (-179455600000000000).
  split; [vm_compute; reflexivity | ].
  split; [vm_compute; reflexivity | ].
  split; [vm_compute; reflexivity | ].
  split; [lia | ].
  intros g. unfold run_simulation.
  change (validate Demo.reverse_flow)
    with (Some {| sccm := of_Z (-1); stick_coeff := of_Z 1;
                  r0 := of_Z 1000; k := of_Z 2 |}).
  apply (simulate_negative_count np_exp rng random_uniform _ _
           (-89727800000000000) (-179455600000000000));
    [vm_compute; reflexivity | vm_compute; reflexivity | lia].
Qed.


(** C3, as amended.  For every validated input the argument of [int] on
    line 118 is [flow_rate * 7.45e-7 * 6.022e23 * seconds_per_frame *
    sticking_coefficient] with [seconds_per_frame = 10/50 = 0.2], taken in
    binary64.  When that product is finite the budget is the product
    truncated toward zero: its floor when the product is not negative, its
    ceiling when it is negative.  When the product is infinite or NaN,
    [int] raises and there is no budget. *)
Theorem molecule_per_frame_truncates (i : inputs) (p : params) :
  validate i = Some p ->
  sccm_input i = Some (sccm p) /\
  stick_input i = Some (stick_coeff p) /\
  molecule_per_frame_raw p
  = fmul (fmul (fmul (fmul (sccm p) (literal 745 1000000000))
                     (of_Z 602200000000000000000000))
               (literal 2 10))
         (stick_coeff p) /\
  (is_finite (molecule_per_frame_raw p) = true ->
   exists budget,
     molecule_per_frame p = Ok budget /\
     trunc (molecule_per_frame_raw p) = Some budget /\
     (sign_bit (molecule_per_frame_raw p) = false ->
      floor (molecule_per_frame_raw p) = Some budget) /\
     (sign_bit (molecule_per_frame_raw p) = true ->
      option_map Qceiling (to_Q (molecule_per_frame_raw p)) = Some budget)) /\
  (is_finite (molecule_per_frame_raw p) = false ->
   exists e, molecule_per_frame p = Raise e).
Proof.
  intros Hv.
  assert (Hin : sccm_input i = Some (sccm p)
                /\ stick_input i = Some (stick_coeff p)).
  { unfold validate in Hv.
    destruct (sccm_input i), (stick_input i), (r0_input i), (k_input i);
      try discriminate.
    destruct (fle _ _ && fle _ _); [ | discriminate].
    inversion Hv. split; reflexivity. }
  destruct Hin as (Hin1 & Hin2).
  split; [exact Hin1 | ]. split; [exact Hin2 | ].
  split; [reflexivity | ]. split.
  - intros Hfin. destruct (py_int_finite _ Hfin) as (b & Hb & Ht).
    exists b. repeat split; try assumption.
    + intros Hs. rewrite (floor_trunc_nonneg _ Hs). exact Ht.
    + intros Hs. rewrite (ceiling_trunc_neg _ Hs). exact Ht.
  - unfold molecule_per_frame.
    destruct (molecule_per_frame_raw p); simpl; intros H; try discriminate;
      eexists; reflexivity.
Qed.

(** C6.  A run is rejected exactly when one of the four numeric fields does
    not parse or the sticking coefficient fails [0 <= s <= 1]; the status is
    then the one fixed message and the run has no locals: no frame, no
    sample.  Sticking coefficients 0 and 1 pass the range check; on a
    binary64 number the check is the check on its real value, and NaN and
    the infinities fail it. *)
Theorem validation_error_iff (i : inputs) (g : rng) :
  (run_simulation' i g = Rejected invalid_status <->
   sccm_input i = None \/ stick_input i = None \/
   r0_input i = None \/ k_input i = None \/
   exists s, stick_input i = Some s
             /\ (fle (of_Z 0) s && fle s (of_Z 1)) = false) /\
  (forall status, run_simulation' i g = Rejected status ->
                  status = invalid_status) /\
  (outcome_state (run_simulation' i g) = None <->
   run_simulation' i g = Rejected invalid_status) /\
  (forall s, s = of_Z 0 \/ s = of_Z 1 ->
             (fle (of_Z 0) s && fle s (of_Z 1)) = true) /\
  (forall s q, valid_binary prec emax s = true -> to_Q s = Some q ->
               ((fle (of_Z 0) s && fle s (of_Z 1)) = true
                <-> (0 <= q <= 1)%Q)) /\
  (forall s, is_finite s = false ->
             (fle (of_Z 0) s && fle s (of_Z 1)) = false).
Proof.
  assert (Hrej : run_simulation' i g = Rejected invalid_status <->
                 validate i = None).
  { unfold run_simulation, simulate. destruct (validate i) as [p | ].
    - split; [ | discriminate].
      destruct (molecule_per_frame p); [ | discriminate].
      destruct (run_frames _ _ _ _ _ _ _); discriminate.
    - split; reflexivity. }
  split; [ | split; [ | split; [ | split; [ | split]]]];
    [ | | | | exact unit_interval | exact unit_interval_not_finite].
  - rewrite Hrej. unfold validate.
    destruct (sccm_input i) as [a | ], (stick_input i) as [s | ],
      (r0_input i) as [r | ], (k_input i) as [c | ];
      try (split; [intros _; tauto | reflexivity]).
    destruct (fle (of_Z 0) s && fle s (of_Z 1)) eqn:E.
    + split; [discriminate | ].
      intros [H | [H | [H | [H | (s' & Hs & H)]]]]; try discriminate.
      inversion Hs. subst s'. congruence.
    + split; [ | reflexivity]. intros _. right. right. right. right.
      exists s. split; [reflexivity | exact E].
  - intros status. unfold run_simulation, simulate.
    destruct (validate i) as [p | ]; [ | congruence].
    destruct (molecule_per_frame p); [ | discriminate].
    destruct (run_frames _ _ _ _ _ _ _); discriminate.
  - rewrite Hrej. unfold run_simulation, simulate.
    destruct (validate i) as [p | ].
    + split; [ | discriminate].
      destruct (molecule_per_frame p); [ | discriminate].
      destruct (run_frames _ _ _ _ _ _ _); discriminate.
    + split; reflexivity.
  - intros s [-> | ->]; vm_compute; reflexivity.
Qed.

(** C7.  The selection nanorod has multiplier 2.0, nanoflake 1.2 and
    nanoparticle 0.8 (the binary64 numbers nearest to them); every other
    string, the empty one included, has multiplier 1.0; and validation does
    not look at the selection. *)
Theorem morphology_multiplier_table :
  adsorption_multiplier "nanorod" = of_Z 2 /\
  adsorption_multiplier "nanoflake" = literal 12 10 /\
  adsorption_multiplier "nanoparticle" = literal 8 10 /\
  adsorption_multiplier "" = of_Z 1 /\
  (forall surface,
      surface <> "nanorod"%string -> surface <> "nanoflake"%string ->
      surface <> "nanoparticle"%string ->
      adsorption_multiplier surface = of_Z 1) /\
  (exists q, to_Q (of_Z 2) = Some q /\ (q == 2)%Q) /\
  (exists q, to_Q (of_Z 1) = Some q /\ (q == 1)%Q) /\
  (exists q, to_Q (literal 12 10) = Some q
             /\ (Qabs (q - (12 # 10)) <= (1 # 9007199254740992))%Q) /\
  (exists q, to_Q (literal 8 10) = Some q
             /\ (Qabs (q - (8 # 10)) <= (1 # 18014398509481984))%Q) /\
  (forall surface surface' a s r c,
      validate {| surface_type := surface; sccm_input := a;
                  stick_input := s; r0_input := r; k_input := c |}
      = validate {| surface_type := surface'; sccm_input := a;
                    stick_input := s; r0_input := r; k_input := c |}).
Proof.
  repeat split; try reflexivity.
  - intros surface H1 H2 H3. unfold adsorption_multiplier.
    apply String.eqb_neq in H1, H2, H3. rewrite H1, H2, H3. reflexivity.
  - eexists. split; [vm_compute; reflexivity | ].
    unfold Qeq. vm_compute. reflexivity.
  - eexists. split; [vm_compute; reflexivity | ].
    unfold Qeq. vm_compute. reflexivity.
  - eexists. split; [vm_compute; reflexivity | ].
    vm_compute. discriminate.
  - eexists. split; [vm_compute; reflexivity | ].
    vm_compute. discriminate.
Qed.

Lemma firstn_seq_le (k a n : nat) :
  (k <= n)%nat -> firstn k (seq a n) = seq a k.
Proof.
  revert a n. induction k as [ | k IH]; intros a n Hk; [reflexivity | ].
  destruct n as [ | n]; [lia | ]. simpl. rewrite IH by lia. reflexivity.
Qed.

Lemma nth_map_seq {A : Type} (f : nat -> A) (a n i : nat) (d : A) :
  (i < n)%nat -> nth i (map f (seq a n)) d = f (a + i)%nat.
Proof.
  intros Hi. rewrite (nth_indep _ d (f 0%nat))
    by (rewrite length_map, length_seq; exact Hi).
  rewrite map_nth, seq_nth by exact Hi. reflexivity.
Qed.

Lemma elapsed_table :
  forallb (fun t =>
             forallb (fun s => Bool.eqb (fle (of_Z (Z.of_nat s)) (elapsed_time t))
                                        (5 * s <=? S t)%nat)
                     (seq 1 10))
          (seq 0 n_frames) = true.
Proof. vm_compute. reflexivity. Qed.

(** C4.  A completed run has recorded exactly the seconds 1, 2, ..., 10, in
    that order, with ten counts that never decrease and ten resistances.
    After [m] frames the series holds the first [m / 5] samples, so the
    sample of second [s] is recorded in frame [5 s - 1] (zero-indexed 4, 9,
    ..., 49) and in no other; that frame is the first whose elapsed time
    [(t + 1) * 0.2] reaches [s]. *)
Theorem ten_samples_every_fifth_frame (i : inputs) (g : rng)
  (status : string) (st : state rng) :
  run_simulation' i g = Completed status st ->
  time_points_1s st = [1; 2; 3; 4; 5; 6; 7; 8; 9; 10] /\
  length (ads_counts_1s st) = 10%nat /\
  length (resistance_1s st) = 10%nat /\
  nondecreasing (ads_counts_1s st) /\
  (exists p budget,
      validate i = Some p /\ molecule_per_frame p = Ok budget /\
      forall m, (m <= n_frames)%nat ->
        exists st_m,
          run_frames' p budget (adsorption_multiplier (surface_type i))
            (seq 0 m) (init_state g) = Next st_m /\
          current_second st_m = Z.of_nat (m / 5) /\
          time_points_1s st_m = map Z.of_nat (seq 1 (m / 5)) /\
          ads_counts_1s st_m = firstn (m / 5) (ads_counts_1s st) /\
          resistance_1s st_m = firstn (m / 5) (resistance_1s st)) /\
  (forall t s, (t < n_frames)%nat -> (1 <= s <= 10)%nat ->
               (fle (of_Z (Z.of_nat s)) (elapsed_time t) = true
                <-> (5 * s <= S t)%nat)) /\
  (forall t, (t < n_frames)%nat ->
             (sample_due t (Z.of_nat (t / 5)) = true
              <-> (S t mod 5 = 0)%nat)).
Proof.
  intros H. apply run_simulation_Completed in H.
  destruct H as (p & budget & Hv & Hb & Hrun & _).
  destruct (completed_effective _ _ _ _ _ _ _ _ Hrun) as (n & He & Hn & _).
  destruct (counted_after np_exp rng random_uniform p budget _ n g n_frames
              st He (Nat.le_refl _) Hrun) as (_ & _ & Htp & Hac & Hres & _).
  change (seconds_after n_frames) with 10%nat in Htp, Hac, Hres.
  split; [rewrite Htp; reflexivity | ].
  split; [rewrite Hac, length_map, length_seq; reflexivity | ].
  split; [rewrite Hres, length_map, length_seq; reflexivity | ].
  split.
  { intros a b Hab. rewrite Hac in *. rewrite length_map, length_seq in Hab.
    rewrite !nth_map_seq by lia. nia. }
  split.
  { exists p, budget. split; [exact Hv | ]. split; [exact Hb | ].
    intros m Hm.
    destruct (run_frames_prefix np_exp rng random_uniform p budget _ m n_frames
                (init_state g) st Hm Hrun) as (st_m & Hpre).
    exists st_m. split; [exact Hpre | ].
    destruct (counted_after np_exp rng random_uniform p budget _ n g m
                st_m He Hm Hpre) as (_ & Hsec' & Htp' & Hac' & Hres' & _).
    unfold seconds_after in *.
    assert (Hk : (m / 5 <= 10)%nat).
    { unfold n_frames in Hm.
      apply (Nat.Div0.div_le_mono m 50 5) in Hm. exact Hm. }
    rewrite Hac, Hres, !firstn_map, firstn_seq_le by exact Hk.
    repeat split; assumption. }
  split.
  { intros t s Ht Hs. pose proof elapsed_table as T.
    rewrite forallb_forall in T.
    specialize (T t ltac:(apply in_seq; lia)).
    rewrite forallb_forall in T.
    specialize (T s ltac:(apply in_seq; lia)).
    apply eqb_prop in T. rewrite T. apply Nat.leb_le. }
  intros t Ht.
  rewrite (schedule t Ht : sample_due t (Z.of_nat (t / 5)) = _).
  apply Nat.eqb_eq.
Qed.


(** From here on [numpy.random.uniform] is assumed to keep its documented
    contract: every sample lies within the closed interval (the upper end
    can be reached through rounding). *)
Hypothesis uniform_range :
  forall lo hi n g i,
    fle lo hi = true -> (i < n)%nat ->
    fle lo (fst (random_uniform lo hi n g) i) = true
    /\ fle (fst (random_uniform lo hi n g) i) hi = true.

(** C8.  Whatever the parameters and however far the loop gets, every event
    in the point cloud has [x] in [[0, surface_length]], [y] in
    [[0, surface_width]] and [z] equal to [surface_thickness]; in particular
    in the locals that any run of [run_simulation] ends with. *)
Theorem events_on_surface :
  (forall p budget mult ts g,
      Forall on_surface
        (adsorbed_positions
           (locals (run_frames' p budget mult ts (init_state g))))) /\
  (forall i g st,
      outcome_state (run_simulation' i g) = Some st ->
      Forall (fun q =>
                fle (of_Z 0) (px q) = true /\ fle (px q) (of_Z 10) = true /\
                fle (of_Z 0) (py q) = true /\ fle (py q) (of_Z 10) = true /\
                pz q = 2)
             (adsorbed_positions st)).
Proof.
  assert (Hloop : forall p budget mult ts g,
             Forall on_surface
               (adsorbed_positions
                  (locals (run_frames' p budget mult ts (init_state g))))).
  { intros p budget mult ts g.
    apply (run_frames_on_surface np_exp rng random_uniform
             uniform_range).
    constructor. }
  split; [exact Hloop | ].
  intros i g st. unfold run_simulation, simulate.
  destruct (validate i) as [p | ]; [ | discriminate].
  destruct (molecule_per_frame p) as [budget | e].
  - pose proof (Hloop p budget (adsorption_multiplier (surface_type i))
                  (seq 0 n_frames) g) as Hl.
    destruct (run_frames _ _ _ _ _ _ _) as [st1 | e st1]; simpl in *;
      intros E; inversion E; subst; exact Hl.
  - simpl. intros E. inversion E. constructor.
Qed.

(** C9.  At the end of every frame the 50 x 50 density grid just computed
    sums to the length of the point cloud: every point of the cloud lies in
    [[0, surface_length] x [0, surface_width]], so none falls in an outlier
    bin. *)
Theorem grid_sum_is_cloud_length (p : params) (budget : Z) (mult : float)
  (g : rng) (t : nat) (st : state rng) :
  run_frames' p budget mult (seq 0 (S t)) (init_state g) = Next st ->
  exists heatmap,
    last (filenames st) (0%nat, []) = (t, heatmap) /\
    length heatmap = 50%nat /\
    Forall (fun row => length row = 50%nat) heatmap /\
    Forall on_surface (adsorbed_positions st) /\
    grid_sum heatmap = length (adsorbed_positions st).
Proof.
  intros H. rewrite run_frames_snoc in H. apply and_then_Next in H.
  destruct H as (st0 & H0 & Hf).
  assert (Hs : Forall on_surface (adsorbed_positions st0)).
  { pose proof (run_frames_on_surface np_exp rng random_uniform
                  uniform_range p budget mult (seq 0 t)
                  (init_state g) (Forall_nil _)) as Hl.
    rewrite H0 in Hl. exact Hl. }
  pose proof (frame_on_surface np_exp rng random_uniform uniform_range p budget mult t st0 Hs) as Hs'.
  rewrite Hf in Hs'. simpl in Hs'.
  apply frame_Next in Hf. destruct Hf as (n & _ & _ & Hf). cbv zeta in Hf.
  destruct Hf as (_ & Hcloud & Hfiles & _).
  exists (histogram2d (adsorbed_positions st)).
  rewrite Hfiles, last_last, <- Hcloud.
  split; [reflexivity | ].
  split; [unfold histogram2d; cbv zeta;
          rewrite length_map, length_seq; reflexivity | ].
  split.
  - unfold histogram2d. cbv zeta. apply Forall_forall. intros row Hrow.
    apply in_map_iff in Hrow. destruct Hrow as (a & <- & _).
    rewrite length_map, length_seq. reflexivity.
  - split; [exact Hs' | ]. apply grid_sum_on_surface. exact Hs'.
Qed.

End Claims.

(** * Instances *)

Lemma faint_flow_run :
  run_simulation Demo.taylor_exp Demo.alternating Demo.faint_flow 0%nat
  = Completed completed_status Demo.faint_final.
Proof.
  destruct faint_flow_completes as (st & H).
  unfold Demo.faint_final. rewrite H. reflexivity.
Qed.

Lemma faint_first_frame :
  run_frames Demo.taylor_exp Demo.alternating Demo.faint_params 1 (of_Z 2)
    (seq 0 1) (init_state 0%nat) = Next Demo.faint_first.
Proof. vm_compute. reflexivity. Qed.


(** At flow rate -2^-57 the product on line 118 is about -0.62: [int]
    gives 0 where the floor is -1. *)
Lemma molecule_per_frame_not_floor :
  validate Demo.faint_reverse_flow = Some Demo.faint_reverse_params /\
  molecule_per_frame Demo.faint_reverse_params = Ok 0 /\
  floor (molecule_per_frame_raw Demo.faint_reverse_params) = Some (-1).
Proof. repeat split; vm_compute; reflexivity. Qed.

Lemma molecule_per_frame_truncates_witness :
  validate Demo.faint_reverse_flow = Some Demo.faint_reverse_params /\
  exists budget,
    molecule_per_frame Demo.faint_reverse_params = Ok budget /\
    trunc (molecule_per_frame_raw Demo.faint_reverse_params) = Some budget /\
    option_map Qceiling (to_Q (molecule_per_frame_raw Demo.faint_reverse_params))
    = Some budget.
Proof.
  assert (Hv : validate Demo.faint_reverse_flow
               = Some Demo.faint_reverse_params)
    by (vm_compute; reflexivity).
  assert (Hf : is_finite (molecule_per_frame_raw Demo.faint_reverse_params)
               = true)
    by (vm_compute; reflexivity).
  assert (Hs : sign_bit (molecule_per_frame_raw Demo.faint_reverse_params)
               = true)
    by (vm_compute; reflexivity).
  split; [exact Hv | ].
  destruct (molecule_per_frame_truncates Demo.faint_reverse_flow
              Demo.faint_reverse_params Hv) as (_ & _ & _ & Hfin & _).
  destruct (Hfin Hf) as (budget & Hb & Ht & _ & Hc).
  exists budget.
  split; [exact Hb | split; [exact Ht | exact (Hc Hs)]].
Defined.

Lemma ten_samples_every_fifth_frame_witness :
  run_simulation Demo.taylor_exp Demo.alternating Demo.faint_flow 0%nat
  = Completed completed_status Demo.faint_final /\
  time_points_1s Demo.faint_final = [1; 2; 3; 4; 5; 6; 7; 8; 9; 10] /\
  length (ads_counts_1s Demo.faint_final) = 10%nat /\
  nondecreasing (ads_counts_1s Demo.faint_final).
Proof.
  split; [exact faint_flow_run | ].
  destruct (ten_samples_every_fifth_frame Demo.taylor_exp nat Demo.alternating
              Demo.faint_flow 0%nat completed_status Demo.faint_final
              faint_flow_run) as (Htp & Hac & _ & Hmono & _).
  repeat split; assumption.
Defined.


Lemma events_on_surface_witness :
  (forall lo hi n g i,
      fle lo hi = true -> (i < n)%nat ->
      fle lo (fst (Demo.alternating lo hi n g) i) = true
      /\ fle (fst (Demo.alternating lo hi n g) i) hi = true) /\
  outcome_state
    (run_simulation Demo.taylor_exp Demo.alternating Demo.faint_flow 0%nat)
  = Some Demo.faint_final /\
  Forall (fun q =>
            fle (of_Z 0) (px q) = true /\ fle (px q) (of_Z 10) = true /\
            fle (of_Z 0) (py q) = true /\ fle (py q) (of_Z 10) = true /\
            pz q = 2)
         (adsorbed_positions Demo.faint_final).
Proof.
  assert (H : outcome_state
                (run_simulation Demo.taylor_exp Demo.alternating
                   Demo.faint_flow 0%nat)
              = Some Demo.faint_final)
    by (rewrite faint_flow_run; reflexivity).
  split; [exact alternating_range | ].
  split; [exact H | ].
  exact (proj2 (events_on_surface Demo.taylor_exp nat Demo.alternating
                  alternating_range)
           Demo.faint_flow 0%nat Demo.faint_final H).
Defined.

Lemma grid_sum_is_cloud_length_witness :
  (forall lo hi n g i,
      fle lo hi = true -> (i < n)%nat ->
      fle lo (fst (Demo.alternating lo hi n g) i) = true
      /\ fle (fst (Demo.alternating lo hi n g) i) hi = true) /\
  run_frames Demo.taylor_exp Demo.alternating Demo.faint_params 1 (of_Z 2)
    (seq 0 1) (init_state 0%nat) = Next Demo.faint_first /\
  exists heatmap,
    last (filenames Demo.faint_first) (0%nat, []) = (0%nat, heatmap) /\
    length heatmap = 50%nat /\
    Forall (fun row => length row = 50%nat) heatmap /\
    Forall on_surface (adsorbed_positions Demo.faint_first) /\
    grid_sum heatmap = length (adsorbed_positions Demo.faint_first).
Proof.
  split; [exact alternating_range | ].
  split; [exact faint_first_frame | ].
  exact (grid_sum_is_cloud_length Demo.taylor_exp nat Demo.alternating
           alternating_range Demo.faint_params 1 (of_Z 2)
           0%nat 0%nat Demo.faint_first faint_first_frame).
Defined.

(** * Further properties *)

(** ** Signs through rounding *)

Section Signs.

Lemma iter_pos_keeps {A : Type} (P : A -> Prop) (f : A -> A) :
  (forall x, P x -> P (f x)) ->
  forall (n : positive) (x : A), P x -> P (iter_pos f n x).
Proof.
  intros Hf. induction n as [n IH | n IH | ]; intros x Hx; simpl.
  - apply IH, IH, Hf, Hx.
  - apply IH, IH, Hx.
  - apply Hf, Hx.
Qed.

Lemma shr_1_nonneg (mrs : shr_record) :
  0 <= shr_m mrs -> 0 <= shr_m (shr_1 mrs).
Proof.
  destruct mrs as [m r s]. simpl.
  destruct m as [ | [m | m | ] | [m | m | ]]; simpl; lia.
Qed.

Lemma shr_fexp_nonneg (m e : Z) (l : location) :
  0 <= m -> 0 <= shr_m (fst (shr_fexp prec emax m e l)).
Proof.
  intros Hm. unfold shr_fexp, shr.
  assert (H0 : 0 <= shr_m (shr_record_of_loc m l))
    by (destruct l as [ | [ | | ]]; exact Hm).
  destruct (fexp prec emax (Zdigits2 m + e) - e) as [ | n | n]; simpl;
    try exact H0.
  apply (iter_pos_keeps (fun mrs => 0 <= shr_m mrs)); [ | exact H0].
  exact shr_1_nonneg.
Qed.

Lemma round_nearest_even_nonneg (m : Z) (l : location) :
  0 <= m -> 0 <= round_nearest_even m l.
Proof.
  intros Hm. unfold round_nearest_even.
  destruct l as [ | [ | | ]]; try lia.
  destruct (Z.even m); lia.
Qed.

(** Rounding a non-negative mantissa gives a number, of the sign asked
    for. *)
Lemma binary_round_aux_sign (sx : bool) (mx ex : Z) (lx : location) :
  0 <= mx ->
  binary_round_aux prec emax sx mx ex lx <> S754_nan
  /\ sign_bit (binary_round_aux prec emax sx mx ex lx) = sx.
Proof.
  intros Hm. unfold binary_round_aux.
  pose proof (shr_fexp_nonneg mx ex lx Hm) as H1.
  destruct (shr_fexp prec emax mx ex lx) as [mrs' e']. simpl in H1.
  pose proof (shr_fexp_nonneg _ e' loc_Exact
                (round_nearest_even_nonneg _ (loc_of_shr_record mrs') H1))
    as H2.
  destruct (shr_fexp prec emax _ e' loc_Exact) as [mrs'' e'']. simpl in H2.
  destruct (shr_m mrs'') as [ | m | m].
  - split; [discriminate | reflexivity].
  - destruct (e'' <=? emax - prec); split; try discriminate; reflexivity.
  - lia.
Qed.

Lemma of_nat_sign (c : nat) :
  of_Z (Z.of_nat c) <> S754_nan /\ sign_bit (of_Z (Z.of_nat c)) = false.
Proof.
  unfold of_Z, binary_normalize.
  destruct (Z.of_nat c) as [ | m | m] eqn:E.
  - split; [discriminate | reflexivity].
  - unfold binary_round.
    destruct (shl_align m 0 _) as [mz ez].
    apply binary_round_aux_sign. lia.
  - lia.
Qed.

Lemma fdiv_sign (m : positive) (e : Z) (a : float) :
  a <> S754_nan -> sign_bit a = false -> is_finite a = true ->
  fdiv a (S754_finite false m e) <> S754_nan
  /\ sign_bit (fdiv a (S754_finite false m e)) = false.
Proof.
  intros Hn Hs Hf. destruct a as [s | s | | s ma ea]; try discriminate;
    simpl in Hs; subst s.
  - split; [discriminate | reflexivity].
  - unfold fdiv, SFdiv, SFdiv_core_binary. cbn [xorb].
    set (m' := match _ - _ - _ with
               | Z.pos _ => _ | 0 => Z.pos ma | Z.neg _ => 0 end).
    assert (Hm' : 0 <= m').
    { subst m'. destruct (_ - _ - _) as [ | s | s]; try lia.
      apply Z.shiftl_nonneg. lia. }
    pose proof (Z.div_pos m' (Z.pos m) Hm' ltac:(lia)) as Hq.
    unfold Z.div in Hq.
    destruct (Z.div_eucl m' (Z.pos m)) as [q r]. simpl in Hq.
    apply binary_round_aux_sign. exact Hq.
Qed.

End Signs.

(** ** Coverage *)

Lemma fle_zero_nonneg (x : float) :
  x <> S754_nan -> sign_bit x = false -> fle (S754_zero false) x = true.
Proof.
  destruct x as [s | s | | s m e]; simpl; intros Hn Hs; try congruence;
    subst s; reflexivity.
Qed.

Lemma py_min_le_r (a b : float) :
  a <> S754_nan -> b <> S754_nan -> fle (py_min a b) b = true.
Proof.
  intros Ha Hb. unfold py_min, flt, fle, SFltb, SFleb.
  destruct (SFcompare b a) as [[ | | ] | ] eqn:E.
  - rewrite (SFcompare_antisym b a), E. reflexivity.
  - rewrite SFcompare_refl by exact Hb. reflexivity.
  - rewrite (SFcompare_antisym b a), E. reflexivity.
  - destruct a, b; simpl in E; congruence.
Qed.

(** X12.  Line 154: the coverage computed from any cloud length that converts to
    [float] is a number between 0 and 1, ends included. *)
Theorem coverage_in_unit_interval (count : nat) (total : float) :
  py_float (Z.of_nat count) = Ok total ->
  coverage_of total <> S754_nan /\
  fle (of_Z 0) (coverage_of total) = true /\
  fle (coverage_of total) (of_Z 1) = true.
Proof.
  unfold py_float. intros H.
  destruct (is_finite (of_Z (Z.of_nat count))) eqn:Hfin; [ | discriminate].
  inversion H. subst total. clear H.
  destruct (of_nat_sign count) as (Hn & Hs).
  assert (Hms : max_sites = S754_finite false 8589934592000000 (-33))
    by (vm_compute; reflexivity).
  assert (H1 : of_Z 1 = S754_finite false 4503599627370496 (-52))
    by (vm_compute; reflexivity).
  assert (H0 : of_Z 0 = S754_zero false) by (vm_compute; reflexivity).
  unfold coverage_of. rewrite Hms, H1, H0.
  destruct (fdiv_sign 8589934592000000 (-33) _ Hn Hs Hfin) as (Hcn & Hcs).
  set (cov := fdiv (of_Z (Z.of_nat count))
                   (S754_finite false 8589934592000000 (-33))) in *.
  split; [ | split].
  - unfold py_min. destruct (flt _ cov); [discriminate | exact Hcn].
  - unfold py_min. destruct (flt _ cov); [reflexivity | ].
    apply fle_zero_nonneg; assumption.
  - apply py_min_le_r; [exact Hcn | discriminate].
Qed.

(** ** The surface selector *)

(** X15.  Lines 30 and 121-128: the surface types that the combo box offers are
    exactly the strings with a multiplier of their own, so the default 1.0
    is never used for a selection made in the window; the selection is
    always one of the items, at first the nanorod. *)
Theorem selector_matches_table :
  (forall surface,
      In surface surface_choices
      <-> adsorption_multiplier surface <> of_Z 1) /\
  (forall index,
      (index < length surface_choices)%nat ->
      In (currentText surface_choices index) surface_choices) /\
  currentText surface_choices 0 = "nanorod"%string.
Proof.
  split; [ | split].
  - intros surface. unfold adsorption_multiplier, surface_choices.
    destruct (String.eqb_spec surface "nanorod") as [-> | H1].
    { split; [intros _; vm_compute; discriminate | intros _; simpl; tauto]. }
    destruct (String.eqb_spec surface "nanoflake") as [-> | H2].
    { split; [intros _; vm_compute; discriminate | intros _; simpl; tauto]. }
    destruct (String.eqb_spec surface "nanoparticle") as [-> | H3].
    { split; [intros _; vm_compute; discriminate | intros _; simpl; tauto]. }
    split; [ | intros H; exfalso; apply H; reflexivity].
    simpl. intros [H | [H | [H | []]]]; congruence.
  - intros index Hi. unfold currentText. apply nth_In. exact Hi.
  - reflexivity.
Qed.

(** ** Histograms of a growing cloud *)

Section Histograms.

Lemma bincount_app (l1 l2 : list (nat * nat)) (a b : nat) :
  bincount (l1 ++ l2) a b = (bincount l1 a b + bincount l2 a b)%nat.
Proof. unfold bincount. rewrite filter_app, length_app. reflexivity. Qed.

Lemma histogram2d_entry (pts : list point) (i j : nat) :
  (i < bins)%nat -> (j < bins)%nat ->
  nth j (nth i (histogram2d pts) []) 0%nat
  = bincount (bin_numbers pts) (S i) (S j).
Proof.
  intros Hi Hj. unfold histogram2d. cbv zeta.
  rewrite (nth_map_seq _ 0 bins i []) by exact Hi.
  rewrite (nth_map_seq _ 0 bins j 0%nat) by exact Hj.
  reflexivity.
Qed.

Lemma histogram2d_outside (pts : list point) (i j : nat) :
  (bins <= i)%nat \/ (bins <= j)%nat ->
  nth j (nth i (histogram2d pts) []) 0%nat = 0%nat.
Proof.
  intros H.
  destruct (Nat.lt_ge_cases i bins) as [Hi | Hi].
  - unfold histogram2d. cbv zeta.
    rewrite (nth_map_seq _ 0 bins i []) by exact Hi.
    apply nth_overflow. rewrite length_map, length_seq. lia.
  - rewrite (nth_overflow (histogram2d pts)).
    + destruct j; reflexivity.
    + unfold histogram2d. cbv zeta. rewrite length_map, length_seq.
      exact Hi.
Qed.

(** The grid of a cloud that was extended is, bin by bin, the grid of the
    old cloud plus the grid of the new points alone. *)
Lemma histogram2d_app (old new : list point) (i j : nat) :
  nth j (nth i (histogram2d (old ++ new)) []) 0%nat
  = (nth j (nth i (histogram2d old) []) 0
     + nth j (nth i (histogram2d new) []) 0)%nat.
Proof.
  destruct (Nat.lt_ge_cases i bins) as [Hi | Hi];
    [destruct (Nat.lt_ge_cases j bins) as [Hj | Hj] | ].
  - rewrite !histogram2d_entry by assumption.
    unfold bin_numbers. rewrite map_app. apply bincount_app.
  - rewrite !histogram2d_outside by (right; exact Hj). reflexivity.
  - rewrite !histogram2d_outside by (left; exact Hi). reflexivity.
Qed.

Lemma grid_le_firstn (cloud : list point) (a b : nat) :
  (a <= b)%nat ->
  grid_le (histogram2d (firstn a cloud)) (histogram2d (firstn b cloud)).
Proof.
  intros Hab i j.
  rewrite <- (firstn_skipn a (firstn b cloud)).
  rewrite firstn_firstn, (Nat.min_l a b Hab), histogram2d_app. lia.
Qed.

Lemma histogram2d_shape (pts : list point) :
  length (histogram2d pts) = bins
  /\ Forall (fun row => length row = bins) (histogram2d pts).
Proof.
  unfold histogram2d. cbv zeta. split.
  - rewrite length_map, length_seq. reflexivity.
  - apply Forall_forall. intros row Hrow. apply in_map_iff in Hrow.
    destruct Hrow as (a & <- & _). rewrite length_map, length_seq.
    reflexivity.
Qed.


End Histograms.

(** ** Frame files *)

Section Files.

Lemma string_length_append (a b : string) :
  String.length (a ++ b)%string = (String.length a + String.length b)%nat.
Proof.
  induction a as [ | c a IH]; simpl; [reflexivity | ]. rewrite IH.
  reflexivity.
Qed.

Lemma append_cancel_r (a b x : string) :
  (a ++ x)%string = (b ++ x)%string -> a = b.
Proof.
  revert b. induction a as [ | c a IH]; intros b H.
  - destruct b as [ | d b]; [reflexivity | exfalso].
    apply (f_equal String.length) in H. simpl in H.
    rewrite string_length_append in H. lia.
  - destruct b as [ | d b].
    + exfalso. apply (f_equal String.length) in H. simpl in H.
      rewrite string_length_append in H. lia.
    + simpl in H. inversion H. f_equal. apply IH. assumption.
Qed.

Lemma decimal_inj (t t' : nat) : decimal t = decimal t' -> t = t'.
Proof.
  unfold decimal. intros H. apply DecimalNat.Unsigned.to_uint_inj.
  apply (f_equal DecimalString.NilEmpty.uint_of_string) in H.
  rewrite !DecimalString.NilEmpty.usu in H. inversion H. reflexivity.
Qed.

(** Line 178: different frames get different file names. *)
Lemma frame_name_inj (t t' : nat) : frame_name t = frame_name t' -> t = t'.
Proof.
  unfold frame_name. intros H. simpl in H.
  inversion H as [H']. apply append_cancel_r in H'.
  apply decimal_inj. exact H'.
Qed.

Lemma frame_name_eqb (t t' : nat) :
  String.eqb (frame_name t) (frame_name t') = Nat.eqb t t'.
Proof.
  destruct (Nat.eqb_spec t t') as [-> | Hne].
  - apply String.eqb_refl.
  - apply String.eqb_neq. intros H. apply Hne, frame_name_inj, H.
Qed.

Local Abbreviation save :=
  (fun (s : store) (f : nat * grid) =>
     write (frame_name (fst f)) (transpose (snd f)) s).

Lemma read_other_writes (t : nat) (fs : list (nat * grid)) (s : store) :
  ~ In t (map fst fs) ->
  read (frame_name t) (fold_left save fs s) = read (frame_name t) s.
Proof.
  revert s. induction fs as [ | f fs IH]; intros s Hn; [reflexivity | ].
  cbn [fold_left]. rewrite IH by (intros H; apply Hn; right; exact H).
  unfold write. cbn [read]. rewrite frame_name_eqb.
  destruct (Nat.eqb_spec (fst f) t) as [E | _]; [ | reflexivity].
  exfalso. apply Hn. left. exact E.
Qed.

Lemma read_own_write (t : nat) (h : grid) (fs : list (nat * grid))
  (s : store) :
  NoDup (map fst fs) -> In (t, h) fs ->
  read (frame_name t) (fold_left save fs s) = Some (transpose h).
Proof.
  revert s. induction fs as [ | f fs IH]; intros s Hnd Hin; [contradiction | ].
  simpl in Hnd. inversion Hnd as [ | x l Hx Hl]. subst.
  cbn [fold_left]. destruct Hin as [-> | Hin].
  - rewrite read_other_writes by exact Hx.
    unfold write. cbn [read fst snd]. rewrite String.eqb_refl. reflexivity.
  - apply IH; assumption.
Qed.

(** When no frame index occurs twice, no frame file is overwritten, and
    reading the files back in the order of [filenames] gives each frame's
    own image. *)
Lemma frames_read_back (fs : list (nat * grid)) :
  NoDup (map fst fs) ->
  read_all (map (fun f => frame_name (fst f)) fs) (saved_frames fs)
  = Some (map (fun f => transpose (snd f)) fs).
Proof.
  intros Hnd. unfold saved_frames.
  assert (H : forall l, incl l fs ->
              read_all (map (fun f => frame_name (fst f)) l)
                       (fold_left save fs [])
              = Some (map (fun f => transpose (snd f)) l)).
  { induction l as [ | [t h] l IH]; intros Hl; [reflexivity | ].
    cbn [map read_all fst snd]. rewrite (read_own_write t h fs [] Hnd)
      by (apply Hl; left; reflexivity).
    rewrite IH by (intros x Hx; apply Hl; right; exact Hx).
    reflexivity. }
  apply H, incl_refl.
Qed.

End Files.

(** ** Invariants of the loop *)

Section Invariants.

Variable np_exp : float -> float.
Variable rng : Type.
Variable random_uniform :
  float -> float -> nat -> rng -> (nat -> float) * rng.
Variable p : params.
Variable budget : Z.
Variable mult : float.

Local Abbreviation frames := (run_frames np_exp random_uniform p budget mult).
Local Abbreviation frame_at := (frame np_exp random_uniform p budget mult).

(** *** The cloud only grows *)

Lemma frame_appends (t : nat) (st : state rng) :
  exists new,
    adsorbed_positions (locals (frame_at t st))
    = adsorbed_positions st ++ new.
Proof.
  unfold frame.
  destruct (effective_molecules budget mult) as [n | e];
    [ | exists []; rewrite app_nil_r; reflexivity].
  unfold deposit.
  destruct (n <? 0); [exists []; rewrite app_nil_r; reflexivity | ].
  destruct (draw random_uniform (Z.to_nat n) (generator st)) as [new g2].
  exists new. unfold and_then, sample, render, rasterize. simpl.
  destruct (sample_due t (current_second st)); simpl.
  - destruct (py_float _); simpl; [ | reflexivity].
    destruct (adsorbed_positions st ++ new); reflexivity.
  - destruct (adsorbed_positions st ++ new); reflexivity.
Qed.

(** X1.  Lines 140-148: whatever frames are run and wherever the loop stops, the
    point cloud it started from is still there, in place and in order, at
    the front of the cloud: events are appended, never removed, changed or
    reordered. *)
Theorem cloud_append_only (ts : list nat) (st : state rng) :
  exists new,
    adsorbed_positions (locals (frames ts st)) = adsorbed_positions st ++ new.
Proof.
  revert st. induction ts as [ | t ts IH]; intros st.
  - exists []. simpl. rewrite app_nil_r. reflexivity.
  - simpl. destruct (frame_appends t st) as (new1 & H1).
    destruct (frame_at t st) as [st1 | e st1]; simpl in *.
    + destruct (IH st1) as (new2 & H2). exists (new1 ++ new2).
      rewrite H2, H1, app_assoc. reflexivity.
    + exists new1. exact H1.
Qed.

(** *** The series advance together *)

Lemma in_step_snoc (st st' : state rng) (k : nat) (c : Z) (r : float) :
  in_step st k ->
  time_points_1s st' = time_points_1s st ++ [Z.of_nat k + 1] ->
  ads_counts_1s st' = ads_counts_1s st ++ [c] ->
  resistance_1s st' = resistance_1s st ++ [r] ->
  in_step st' (S k).
Proof.
  intros (Htp & Hac & Hres) Htp' Hac' Hres'. unfold in_step.
  rewrite Htp', Hac', Hres', Htp, seq_S, map_app, !length_app, Hac, Hres.
  simpl. repeat split; try lia.
  do 2 f_equal. lia.
Qed.

Lemma py_float_Raise (z : Z) (e : exn) :
  py_float z = Raise e -> e = OverflowError.
Proof.
  unfold py_float. destruct (is_finite (of_Z z)); intros H; inversion H.
  reflexivity.
Qed.

Lemma frame_ratchet (t : nat) (st : state rng) (k : nat) :
  in_step st k -> current_second st = Z.of_nat k ->
  exists k', (k <= k' <= S k)%nat /\ ratchet (frame_at t st) k'.
Proof.
  intros Hin Hsec. unfold frame.
  destruct (effective_molecules budget mult) as [n | e];
    [ | exists k; simpl; split; [lia | split; [exact Hin | left; exact Hsec]]].
  unfold deposit.
  destruct (n <? 0);
    [exists k; simpl; split; [lia | split; [exact Hin | left; exact Hsec]] | ].
  destruct (draw random_uniform (Z.to_nat n) (generator st)) as [new g2].
  unfold and_then, sample, render, rasterize. simpl.
  destruct (sample_due t (current_second st)); simpl.
  - destruct (py_float _) as [total | e] eqn:Hfl; simpl.
    + exists (S k). split; [lia | ].
      assert (Hin' : forall st' : state rng,
                 time_points_1s st'
                 = time_points_1s st ++ [current_second st + 1] ->
                 ads_counts_1s st'
                 = ads_counts_1s st
                     ++ [Z.of_nat (length (adsorbed_positions st ++ new))] ->
                 resistance_1s st'
                 = resistance_1s st
                     ++ [resistance_of np_exp p (coverage_of total)] ->
                 in_step st' (S k)).
      { intros st' H1 H2 H3. rewrite Hsec in H1.
        exact (in_step_snoc st st' k _ _ Hin H1 H2 H3). }
      destruct (adsorbed_positions st ++ new); simpl;
        (split; [apply Hin'; reflexivity | ]); try left; simpl; lia.
    + exists k. split; [lia | ]. split; [exact Hin | ].
      right. split; [exact (py_float_Raise _ _ Hfl) | simpl; lia].
  - exists k. split; [lia | ].
    destruct (adsorbed_positions st ++ new); simpl;
      (split; [exact Hin | ]); try left; exact Hsec.
Qed.

Lemma run_frames_ratchet (ts : list nat) (st : state rng) (k : nat) :
  in_step st k -> current_second st = Z.of_nat k ->
  exists k', (k <= k' <= k + length ts)%nat /\ ratchet (frames ts st) k'.
Proof.
  revert st k. induction ts as [ | t ts IH]; intros st k Hin Hsec.
  - exists k. simpl. split; [lia | split; assumption].
  - simpl. destruct (frame_ratchet t st k Hin Hsec) as (k1 & Hk1 & H1).
    destruct (frame_at t st) as [st1 | e st1]; simpl in *.
    + destruct H1 as (Hin1 & Hsec1).
      destruct (IH st1 k1 Hin1 Hsec1) as (k2 & Hk2 & H2).
      exists k2. split; [lia | exact H2].
    + exists k1. split; [lia | exact H1].
Qed.

(** X2.  Lines 150-159: whatever frames are run and wherever the loop stops, the
    three series have the same length [k], at most one sample per frame,
    and the recorded seconds are 1, 2, ..., [k]; the second counter equals
    [k], except that it is one ahead when the [int]-to-[float] conversion
    of line 154 has just raised. *)
Theorem series_advance_together (ts : list nat) (g : rng) :
  exists k,
    (k <= length ts)%nat /\
    time_points_1s (locals (frames ts (init_state g)))
    = map Z.of_nat (seq 1 k) /\
    length (ads_counts_1s (locals (frames ts (init_state g)))) = k /\
    length (resistance_1s (locals (frames ts (init_state g)))) = k /\
    match frames ts (init_state g) with
    | Next st => current_second st = Z.of_nat k
    | Abort e st =>
        current_second st = Z.of_nat k
        \/ (e = OverflowError /\ current_second st = Z.of_nat k + 1)
    end.
Proof.
  destruct (run_frames_ratchet ts (init_state g) 0) as (k & Hk & H).
  - repeat split.
  - reflexivity.
  - exists k. split; [lia | ].
    destruct (frames ts (init_state g)) as [st | e st]; simpl in *.
    + destruct H as ((H1 & H2 & H3) & H4). repeat split; assumption.
    + destruct H as ((H1 & H2 & H3) & H4). repeat split; assumption.
Qed.

(** *** Recorded counts *)

Lemma counts_below_weaken (counts : list Z) (b b' : Z) :
  counts_below counts b -> b <= b' -> counts_below counts b'.
Proof.
  intros (Hall & Hmono) Hb. split; [ | exact Hmono].
  eapply Forall_impl; [ | exact Hall]. simpl. intros c Hc. lia.
Qed.

Lemma counts_below_snoc (counts : list Z) (b : Z) :
  counts_below counts b -> 0 <= b -> counts_below (counts ++ [b]) b.
Proof.
  intros (Hall & Hmono) Hb. split.
  - apply Forall_app. split; [exact Hall | ]. constructor; [lia | constructor].
  - intros i j Hij. rewrite length_app in Hij. simpl in Hij.
    destruct (Nat.lt_ge_cases j (length counts)) as [Hj | Hj].
    + rewrite !app_nth1 by lia. apply Hmono. lia.
    + replace j with (length counts) by lia.
      rewrite (app_nth2 counts [b] 0 (Nat.le_refl _)), Nat.sub_diag.
      simpl nth at 2.
      destruct (Nat.lt_ge_cases i (length counts)) as [Hi | Hi].
      * rewrite app_nth1 by exact Hi.
        rewrite Forall_forall in Hall.
        apply (Hall (nth i counts 0)), nth_In, Hi.
      * replace i with (length counts) by lia.
        rewrite (app_nth2 counts [b] 0 (Nat.le_refl _)), Nat.sub_diag.
        simpl. lia.
Qed.

Lemma frame_counts_below (t : nat) (st : state rng) :
  counts_below (ads_counts_1s st)
               (Z.of_nat (length (adsorbed_positions st))) ->
  counts_below
    (ads_counts_1s (locals (frame_at t st)))
    (Z.of_nat (length (adsorbed_positions (locals (frame_at t st))))).
Proof.
  intros H. unfold frame.
  destruct (effective_molecules budget mult) as [n | e]; [ | exact H].
  unfold deposit. destruct (n <? 0); [exact H | ].
  destruct (draw random_uniform (Z.to_nat n) (generator st)) as [new g2].
  assert (Hw : counts_below (ads_counts_1s st)
                 (Z.of_nat (length (adsorbed_positions st ++ new)))).
  { apply (counts_below_weaken _ _ _ H). rewrite length_app. lia. }
  assert (Hs : counts_below
                 (ads_counts_1s st
                    ++ [Z.of_nat (length (adsorbed_positions st ++ new))])
                 (Z.of_nat (length (adsorbed_positions st ++ new))))
    by (apply counts_below_snoc; [exact Hw | lia]).
  unfold and_then, sample, render, rasterize. simpl.
  destruct (sample_due t (current_second st)); simpl.
  - destruct (py_float _); simpl; [ | exact Hw].
    destruct (adsorbed_positions st ++ new) eqn:E; simpl; rewrite <- ?E;
      exact Hs.
  - destruct (adsorbed_positions st ++ new) eqn:E; simpl; rewrite <- ?E;
      exact Hw.
Qed.

(** X3.  Lines 153-158: in every state the loop can reach, stopped or not, the
    recorded counts never decrease from one sample to the next and none
    exceeds the present length of the point cloud. *)
Theorem counts_never_decrease (ts : list nat) (g : rng) :
  counts_below
    (ads_counts_1s (locals (frames ts (init_state g))))
    (Z.of_nat (length (adsorbed_positions (locals (frames ts (init_state g)))))).
Proof.
  assert (H : forall st,
             counts_below (ads_counts_1s st)
                          (Z.of_nat (length (adsorbed_positions st))) ->
             counts_below
               (ads_counts_1s (locals (frames ts st)))
               (Z.of_nat (length (adsorbed_positions (locals (frames ts st)))))).
  { induction ts as [ | t ts IH]; intros st Hst; [exact Hst | ].
    simpl. pose proof (frame_counts_below t st Hst) as Hf.
    destruct (frame_at t st) as [st1 | e st1]; simpl in *;
      [apply IH; exact Hf | exact Hf]. }
  apply H. split; [constructor | ].
  intros i j Hij. simpl in Hij. lia.
Qed.

(** *** The frame files *)

Lemma frames_of_snoc (cloud new : list point) (n m : nat) :
  length cloud = (m * n)%nat -> length new = n ->
  frames_of (cloud ++ new) n (S m)
  = frames_of cloud n m ++ [(m, histogram2d (cloud ++ new))].
Proof.
  intros Hc Hn. unfold frames_of. rewrite seq_S, map_app. simpl map at 2.
  f_equal.
  - apply map_ext_in. intros t Ht. apply in_seq in Ht.
    rewrite firstn_app.
    replace (S t * n - length cloud)%nat with 0%nat by nia.
    simpl firstn at 2. rewrite app_nil_r. reflexivity.
  - rewrite firstn_all2; [reflexivity | ].
    rewrite length_app. simpl. lia.
Qed.

Lemma framed_after (n : Z) (g : rng) (m : nat) (st : state rng) :
  effective_molecules budget mult = Ok n ->
  frames (seq 0 m) (init_state g) = Next st ->
  length (adsorbed_positions st) = (m * Z.to_nat n)%nat /\
  filenames st = frames_of (adsorbed_positions st) (Z.to_nat n) m.
Proof.
  intros He. revert st. induction m as [ | m IH]; intros st H.
  - simpl in H. inversion H. split; reflexivity.
  - rewrite run_frames_snoc in H. apply and_then_Next in H.
    destruct H as (st0 & H0 & Hf). destruct (IH st0 H0) as (Hlen & Hfiles).
    apply frame_Next in Hf. destruct Hf as (n' & He' & Hn & Hf).
    rewrite He in He'. inversion He'. subst n'. cbv zeta in Hf.
    destruct Hf as (_ & Hcloud & Hfiles' & _).
    pose proof (draw_length _ random_uniform (Z.to_nat n) (generator st0))
      as Hd.
    split.
    + rewrite Hcloud, length_app, Hd, Hlen. simpl. lia.
    + rewrite Hfiles', Hcloud, Hfiles. symmetry.
      apply frames_of_snoc; assumption.
Qed.

(** X4.  Lines 140-148 and 162-181: after [m] frames of a loop that has not
    stopped, with [n] molecules per frame, the cloud holds [m * n] points,
    and the saved frames are frame 0 to frame [m - 1] in order, frame [t]
    showing the histogram of the first [(t + 1) * n] points of the cloud
    as it is now; the last frame shows the whole cloud. *)
Theorem frames_show_prefixes (n : Z) (g : rng) (m : nat) (st : state rng) :
  effective_molecules budget mult = Ok n ->
  frames (seq 0 (S m)) (init_state g) = Next st ->
  length (adsorbed_positions st) = (S m * Z.to_nat n)%nat /\
  map fst (filenames st) = seq 0 (S m) /\
  (forall t, (t <= m)%nat ->
     nth t (filenames st) (0%nat, [])
     = (t, histogram2d (firstn (S t * Z.to_nat n) (adsorbed_positions st)))) /\
  last (filenames st) (0%nat, []) = (m, histogram2d (adsorbed_positions st)).
Proof.
  intros He H. destruct (framed_after n g (S m) st He H) as (Hlen & Hfiles).
  split; [exact Hlen | ].
  assert (Hnth : forall t, (t <= m)%nat ->
             nth t (filenames st) (0%nat, [])
             = (t, histogram2d
                     (firstn (S t * Z.to_nat n) (adsorbed_positions st)))).
  { intros t Ht. rewrite Hfiles. unfold frames_of.
    rewrite (nth_map_seq _ 0 (S m) t) by lia. reflexivity. }
  split; [ | split; [exact Hnth | ]].
  - rewrite Hfiles. unfold frames_of. rewrite map_map.
    exact (map_id (seq 0 (S m))).
  - rewrite Hfiles at 1. unfold frames_of. rewrite seq_S, map_app.
    simpl map at 2. rewrite last_last.
    rewrite firstn_all2 by (rewrite Hlen; simpl; lia). reflexivity.
Qed.

(** X5.  Lines 162-166: from one saved frame to any later one no bin of the
    density grid decreases. *)
Theorem bins_never_decrease (n : Z) (g : rng) (m : nat) (st : state rng)
  (t t' : nat) :
  effective_molecules budget mult = Ok n ->
  frames (seq 0 m) (init_state g) = Next st ->
  (t <= t' < m)%nat ->
  grid_le (snd (nth t (filenames st) (0%nat, [])))
          (snd (nth t' (filenames st) (0%nat, []))).
Proof.
  intros He H Ht. destruct (framed_after n g m st He H) as (_ & Hfiles).
  rewrite Hfiles. unfold frames_of.
  rewrite (nth_map_seq _ 0 m t), (nth_map_seq _ 0 m t') by lia. simpl snd.
  apply grid_le_firstn. nia.
Qed.

(** *** How a run can stop *)

Lemma and_then_Abort (s : step rng) (f : state rng -> step rng) (e : exn)
  (st' : state rng) :
  and_then s f = Abort e st' ->
  s = Abort e st' \/ exists st, s = Next st /\ f st = Abort e st'.
Proof.
  destruct s as [st | e0 st]; simpl; intros H.
  - right. exists st. split; [reflexivity | exact H].
  - left. exact H.
Qed.

Lemma frame_Abort_files (t : nat) (st st' : state rng) (e : exn) :
  frame_at t st = Abort e st' -> filenames st' = filenames st.
Proof.
  unfold frame.
  destruct (effective_molecules budget mult) as [n | e0];
    [ | intros H; inversion H; reflexivity].
  unfold deposit.
  destruct (n <? 0); [intros H; inversion H; reflexivity | ].
  destruct (draw random_uniform (Z.to_nat n) (generator st)) as [new g2].
  unfold and_then, sample, render, rasterize. simpl.
  destruct (sample_due t (current_second st)); simpl.
  - destruct (py_float _); simpl; [ | intros H; inversion H; reflexivity].
    destruct (adsorbed_positions st ++ new); intros H; inversion H;
      reflexivity.
  - destruct (adsorbed_positions st ++ new); intros H; inversion H;
      reflexivity.
Qed.

Lemma frame_Abort_later (n : Z) (t : nat) (st st' : state rng) (e : exn) :
  effective_molecules budget mult = Ok n -> 0 <= n ->
  adsorbed_positions st <> [] ->
  frame_at t st = Abort e st' ->
  e = OverflowError /\ current_second st' = current_second st + 1
  /\ time_points_1s st' = time_points_1s st.
Proof.
  intros He Hn Hne. unfold frame. rewrite He. unfold deposit.
  destruct (Z.ltb_spec n 0) as [Hneg | _]; [lia | ].
  destruct (draw random_uniform (Z.to_nat n) (generator st)) as [new g2].
  unfold and_then, sample, render, rasterize. simpl.
  assert (Hne' : adsorbed_positions st ++ new <> []).
  { intros E. apply app_eq_nil in E. apply Hne, E. }
  destruct (sample_due t (current_second st)); simpl.
  - destruct (py_float _) as [total | e0] eqn:Hfl; simpl.
    + destruct (adsorbed_positions st ++ new); [contradiction | discriminate].
    + intros H. inversion H. subst. simpl.
      split; [exact (py_float_Raise _ _ Hfl) | split; reflexivity].
  - destruct (adsorbed_positions st ++ new); [contradiction | discriminate].
Qed.

Lemma stopped_loop (g : rng) (m : nat) (e : exn) (st : state rng) :
  frames (seq 0 m) (init_state g) = Abort e st ->
  filenames st = []
  \/ (e = OverflowError
      /\ current_second st = Z.of_nat (length (time_points_1s st)) + 1).
Proof.
  revert e st. induction m as [ | m IH]; intros e st H; [discriminate | ].
  rewrite run_frames_snoc in H. apply and_then_Abort in H.
  destruct H as [H | (st0 & H0 & Hf)]; [exact (IH e st H) | ].
  pose proof (frame_Abort_files m st0 st e Hf) as Hfiles.
  destruct m as [ | m'].
  - left. simpl in H0. inversion H0. subst st0. exact Hfiles.
  - right.
    destruct (run_frames_ratchet (seq 0 (S m')) (init_state g) 0)
      as (k & _ & Hk); [repeat split | reflexivity | ].
    rewrite H0 in Hk. simpl in Hk. destruct Hk as ((Htp & _) & Hsec).
    rewrite run_frames_snoc in H0. apply and_then_Next in H0.
    destruct H0 as (st00 & _ & Hlast).
    apply frame_Next in Hlast. destruct Hlast as (n & He & Hn & Hlast).
    cbv zeta in Hlast. destruct Hlast as (Hne & Hcloud & _).
    rewrite <- Hcloud in Hne.
    destruct (frame_Abort_later n (S m') st0 st e He Hn Hne Hf)
      as (He' & Hsec' & Htp').
    split; [exact He' | ].
    rewrite Hsec', Htp', Hsec, Htp, length_map, length_seq. reflexivity.
Qed.

End Invariants.

(** ** Outcomes of [run_simulation] *)

Section Runs.

Variable np_exp : float -> float.
Variable rng : Type.
Variable random_uniform :
  float -> float -> nat -> rng -> (nat -> float) * rng.

Local Abbreviation run := (run_simulation np_exp random_uniform).


(** *** When a run completes *)

Lemma sample_converted (p : params) (budget n : Z) (mult : float) (g : rng)
  (st : state rng) (s : nat) :
  effective_molecules budget mult = Ok n ->
  run_frames np_exp random_uniform p budget mult (seq 0 n_frames)
    (init_state g) = Next st ->
  (1 <= s <= 10)%nat ->
  is_finite (of_Z (Z.of_nat (5 * s * Z.to_nat n))) = true.
Proof.
  intros He Hrun Hs.
  assert (Hm : (S (5 * s - 1) <= n_frames)%nat) by (unfold n_frames; lia).
  destruct (run_frames_prefix np_exp rng random_uniform p budget mult _
              n_frames (init_state g) st Hm Hrun) as (st_s & Hpre).
  pose proof (counted_after np_exp rng random_uniform p budget mult n g _
                st_s He Hm Hpre) as (Hlen & _).
  rewrite run_frames_snoc in Hpre. apply and_then_Next in Hpre.
  destruct Hpre as (st_a & Ha & Hf).
  assert (Hm' : (5 * s - 1 <= n_frames)%nat) by (unfold n_frames; lia).
  pose proof (counted_after np_exp rng random_uniform p budget mult n g _
                st_a He Hm' Ha) as (_ & Hsec & _).
  apply frame_Next in Hf. destruct Hf as (n' & _ & _ & Hf). cbv zeta in Hf.
  destruct Hf as (_ & Hcloud & _ & Hdue).
  rewrite <- Hcloud, Hsec in Hdue.
  rewrite (schedule (5 * s - 1) ltac:(unfold n_frames; lia)) in Hdue.
  replace (S (5 * s - 1) mod 5)%nat with 0%nat in Hdue.
  2:{ replace (S (5 * s - 1)) with (0 + s * 5)%nat by lia.
      rewrite Nat.Div0.mod_add. reflexivity. }
  simpl in Hdue. destruct Hdue as (total & Hfl & _).
  rewrite Hlen in Hfl. unfold py_float in Hfl.
  replace (S (5 * s - 1) * Z.to_nat n)%nat
    with (5 * s * Z.to_nat n)%nat in Hfl by lia.
  destruct (is_finite _); [reflexivity | discriminate].
Qed.


(** *** Runs without arrivals *)

Lemma fmul_zero_l (x c : float) :
  is_zero x = true -> is_finite c = true -> is_zero (fmul x c) = true.
Proof.
  destruct x as [s | s | | s m e]; try discriminate.
  destruct c as [sc | sc | | sc mc ec]; try discriminate; reflexivity.
Qed.

Lemma fmul_zero_r (x c : float) :
  is_finite x = true -> is_zero c = true -> is_zero (fmul x c) = true.
Proof.
  destruct c as [s | s | | s m e]; try discriminate.
  destruct x as [sx | sx | | sx mx ex]; try discriminate; reflexivity.
Qed.

Lemma is_zero_finite (x : float) : is_zero x = true -> is_finite x = true.
Proof. destruct x; try discriminate; reflexivity. Qed.

Lemma validated_stick_finite (i : inputs) (p : params) :
  validate i = Some p -> is_finite (stick_coeff p) = true.
Proof.
  unfold validate.
  destruct (sccm_input i), (stick_input i) as [s | ], (r0_input i),
    (k_input i); try discriminate.
  destruct (fle (of_Z 0) s && fle s (of_Z 1)) eqn:E; [ | discriminate].
  intros H. inversion H. simpl.
  destruct (is_finite s) eqn:F; [reflexivity | ].
  rewrite (unit_interval_not_finite s F) in E. discriminate.
Qed.

Lemma zero_budget_zero_count (surface : string) :
  effective_molecules 0 (adsorption_multiplier surface) = Ok 0.
Proof.
  unfold adsorption_multiplier.
  destruct (String.eqb surface "nanorod"); [vm_compute; reflexivity | ].
  destruct (String.eqb surface "nanoflake"); [vm_compute; reflexivity | ].
  destruct (String.eqb surface "nanoparticle"); vm_compute; reflexivity.
Qed.

Lemma zero_raw_zero_budget (p : params) :
  is_zero (molecule_per_frame_raw p) = true -> molecule_per_frame p = Ok 0.
Proof.
  unfold molecule_per_frame.
  destruct (molecule_per_frame_raw p); try discriminate. reflexivity.
Qed.

(** X10.  Lines 116-166: with a flow rate of zero, or with a sticking coefficient
    of zero and a molecule rate that has not overflowed, the budget and the
    per-frame count are 0 whatever the surface, and the run stops in its
    first frame with [IndexError], nothing deposited, sampled or saved. *)
Theorem no_arrivals_stop_first_frame (i : inputs) (p : params) (g : rng) :
  validate i = Some p ->
  is_zero (sccm p) = true
  \/ (is_zero (stick_coeff p) = true
      /\ is_finite (fmul (molecule_per_s p) time_per_frame) = true) ->
  molecule_per_frame p = Ok 0 /\
  run i g = Crashed running_status IndexError
              (init_state (snd (draw random_uniform 0 g))).
Proof.
  intros Hv Hz.
  assert (Hb : molecule_per_frame p = Ok 0).
  { apply zero_raw_zero_budget. unfold molecule_per_frame_raw.
    destruct Hz as [Hz | (Hz & Hfin)].
    - apply fmul_zero_l; [ | exact (validated_stick_finite i p Hv)].
      unfold molecule_per_s, mol_per_s.
      repeat (apply fmul_zero_l; [ | reflexivity]). exact Hz.
    - apply fmul_zero_r; assumption. }
  split; [exact Hb | ].
  unfold run_simulation. rewrite Hv.
  exact (simulate_zero_count np_exp rng random_uniform (surface_type i) p 0
           g Hb (zero_budget_zero_count _)).
Qed.

(** X11.  Lines 89-118: a flow rate that parses as NaN or as an infinity passes
    validation, and the run then stops on line 118, before the loop:
    [int] raises [ValueError] on NaN -- also reached from an infinite flow
    rate with sticking coefficient 0 -- and [OverflowError] on an
    infinity. *)
Theorem non_finite_flow_stops_before_loop (i : inputs) (p : params)
  (g : rng) :
  validate i = Some p ->
  is_finite (sccm p) = false ->
  run i g
  = Crashed running_status
      match sccm p with
      | S754_infinity _ =>
          if is_zero (stick_coeff p) then ValueError else OverflowError
      | _ => ValueError
      end
      (init_state g).
Proof.
  intros Hv Hinf. pose proof (validated_stick_finite i p Hv) as Hs.
  unfold run_simulation. rewrite Hv. unfold simulate.
  destruct constants_binary64 as (Hc1 & Hc2 & Hc3 & _).
  unfold molecule_per_frame, molecule_per_frame_raw, molecule_per_s,
    mol_per_s. rewrite Hc1, Hc2, Hc3. unfold fmul.
  destruct (sccm p) as [s | s | | s m e];
    [discriminate Hinf | | | discriminate Hinf]; cbn [SFmul xorb].
  - destruct (stick_coeff p) as [ss | ss | | ss ms es];
      [ | discriminate Hs | discriminate Hs | ]; cbn [SFmul xorb];
      reflexivity.
  - reflexivity.
Qed.

End Runs.

(** ** What the draws decide and what they do not *)

Section Draws.

Variable np_exp : float -> float.
Variables rng rng' : Type.
Variable random_uniform :
  float -> float -> nat -> rng -> (nat -> float) * rng.
Variable random_uniform' :
  float -> float -> nat -> rng' -> (nat -> float) * rng'.

(** X9.  Lines 140-159: the random draws decide only where the points lie.
    For the same input, two runs with different generators either both
    reach the end of the loop or both do not; when they do, their time
    points, counts and resistances are the same, and so are the lengths of
    their point clouds and the numbers of their saved frames. *)
Theorem series_do_not_depend_on_draws (i : inputs) (g : rng) (g' : rng') :
  ((exists st,
       run_simulation np_exp random_uniform i g
       = Completed completed_status st)
   <-> (exists st',
          run_simulation np_exp random_uniform' i g'
          = Completed completed_status st')) /\
  (forall status status' st st',
      run_simulation np_exp random_uniform i g = Completed status st ->
      run_simulation np_exp random_uniform' i g' = Completed status' st' ->
      time_points_1s st = time_points_1s st' /\
      ads_counts_1s st = ads_counts_1s st' /\
      resistance_1s st = resistance_1s st' /\
      length (adsorbed_positions st) = length (adsorbed_positions st') /\
      map fst (filenames st) = map fst (filenames st')).
Proof.
  assert (Hto : forall (r1 r2 : Type)
                  (u1 : float -> float -> nat -> r1 -> (nat -> float) * r1)
                  (u2 : float -> float -> nat -> r2 -> (nat -> float) * r2)
                  (g1 : r1) (g2 : r2),
             (exists st, run_simulation np_exp u1 i g1
                         = Completed completed_status st) ->
             exists st', run_simulation np_exp u2 i g2
                         = Completed completed_status st').
  { intros r1 r2 u1 u2 g1 g2 (st & H).
    apply run_simulation_Completed in H.
    destruct H as (p & budget & Hv & Hb & Hrun & _).
    destruct (completed_effective _ _ _ _ _ _ _ _ Hrun) as (n & He & Hn & _).
    apply (run_simulation_completes np_exp r2 u2 i p budget n g2 Hv Hb He Hn).
    unfold sampled_counts_convert. apply forallb_forall. intros s Hs.
    apply in_seq in Hs.
    apply (sample_converted np_exp r1 u1 p budget n _ g1 st s He Hrun).
    lia. }
  split; [split; apply Hto | ].
  intros status status' st st' H H'.
  apply run_simulation_Completed in H, H'.
  destruct H as (p & budget & Hv & Hb & Hrun & _).
  destruct H' as (p' & budget' & Hv' & Hb' & Hrun' & _).
  rewrite Hv in Hv'. inversion Hv'. subst p'.
  rewrite Hb in Hb'. inversion Hb'. subst budget'.
  destruct (completed_effective _ _ _ _ _ _ _ _ Hrun) as (n & He & _).
  destruct (counted_after np_exp rng random_uniform p budget _ n g n_frames
              st He (Nat.le_refl _) Hrun)
    as (Hlen & _ & Htp & Hac & Hres & Hfn).
  destruct (counted_after np_exp rng' random_uniform' p budget _ n g' n_frames
              st' He (Nat.le_refl _) Hrun')
    as (Hlen' & _ & Htp' & Hac' & Hres' & Hfn').
  rewrite Htp, Htp', Hac, Hac', Hres, Hres', Hlen, Hlen', Hfn, Hfn'.
  repeat split.
Qed.

End Draws.

(** ** After the loop *)

Section Finish.

Variable np_exp : float -> float.
Variable rng : Type.
Variable random_uniform :
  float -> float -> nat -> rng -> (nat -> float) * rng.

Lemma plot_same_length {A B : Type} (xs : list A) (ys : list B) :
  length xs = length ys -> plot xs ys = Some (combine xs ys).
Proof. intros H. unfold plot. rewrite H, Nat.eqb_refl. reflexivity. Qed.

(** X6.  Lines 162-166: although the grid is computed anew from the whole cloud
    in every frame, the grid saved for frame [m + 1] is, bin by bin, the
    grid saved for frame [m] plus the histogram of the points that frame
    [m + 1] deposited, the last [n] points of the cloud. *)
Theorem frame_grid_is_incremental (p : params) (budget n : Z) (mult : float)
  (g : rng) (m : nat) (st : state rng) (i j : nat) :
  effective_molecules budget mult = Ok n ->
  run_frames np_exp random_uniform p budget mult (seq 0 (S (S m)))
    (init_state g) = Next st ->
  nth j (nth i (snd (nth (S m) (filenames st) (0%nat, []))) []) 0%nat
  = (nth j (nth i (snd (nth m (filenames st) (0%nat, []))) []) 0
     + nth j (nth i (histogram2d
                       (skipn (S m * Z.to_nat n) (adsorbed_positions st)))
                 []) 0)%nat.
Proof.
  intros He H.
  destruct (framed_after np_exp rng random_uniform p budget mult n g _ st
              He H) as (Hlen & Hfiles).
  rewrite Hfiles. unfold frames_of.
  rewrite (nth_map_seq _ 0 (S (S m)) (S m)), (nth_map_seq _ 0 (S (S m)) m)
    by lia.
  simpl snd. simpl Nat.add.
  rewrite (firstn_all2 (n := S (S m) * Z.to_nat n)) by lia.
  rewrite <- (firstn_skipn (S m * Z.to_nat n) (adsorbed_positions st)) at 1.
  apply histogram2d_app.
Qed.


End Finish.

(** ** Instances of the further properties *)

Lemma faint_two_frames :
  run_frames Demo.taylor_exp Demo.alternating Demo.faint_params 1 (of_Z 2)
    (seq 0 2) (init_state 0%nat) = Next faint_second.
Proof. vm_compute. reflexivity. Qed.

Lemma faint_count : effective_molecules 1 (of_Z 2) = Ok 2.
Proof. vm_compute. reflexivity. Qed.

Lemma no_flow_run :
  run_simulation Demo.taylor_exp Demo.alternating Demo.no_flow 0%nat
  = Crashed running_status IndexError (init_state 0%nat).
Proof. vm_compute. reflexivity. Qed.

Lemma coverage_in_unit_interval_witness :
  py_float (Z.of_nat 5) = Ok (of_Z 5) /\
  coverage_of (of_Z 5) <> S754_nan /\
  fle (of_Z 0) (coverage_of (of_Z 5)) = true /\
  fle (coverage_of (of_Z 5)) (of_Z 1) = true.
Proof.
  assert (H : py_float (Z.of_nat 5) = Ok (of_Z 5))
    by (vm_compute; reflexivity).
  split; [exact H | ].
  exact (coverage_in_unit_interval 5 (of_Z 5) H).
Defined.


Lemma frames_show_prefixes_witness :
  effective_molecules 1 (of_Z 2) = Ok 2 /\
  run_frames Demo.taylor_exp Demo.alternating Demo.faint_params 1 (of_Z 2)
    (seq 0 1) (init_state 0%nat) = Next Demo.faint_first /\
  length (adsorbed_positions Demo.faint_first) = (1 * Z.to_nat 2)%nat /\
  map fst (filenames Demo.faint_first) = seq 0 1 /\
  last (filenames Demo.faint_first) (0%nat, [])
  = (0%nat, histogram2d (adsorbed_positions Demo.faint_first)).
Proof.
  split; [exact faint_count | ]. split; [exact faint_first_frame | ].
  destruct (frames_show_prefixes Demo.taylor_exp nat Demo.alternating
              Demo.faint_params 1 (of_Z 2) 2 0%nat 0%nat Demo.faint_first
              faint_count faint_first_frame) as (H1 & H2 & _ & H4).
  split; [exact H1 | split; [exact H2 | exact H4]].
Defined.

Lemma bins_never_decrease_witness :
  effective_molecules 1 (of_Z 2) = Ok 2 /\
  run_frames Demo.taylor_exp Demo.alternating Demo.faint_params 1 (of_Z 2)
    (seq 0 2) (init_state 0%nat) = Next faint_second /\
  (0 <= 1 < 2)%nat /\
  grid_le (snd (nth 0 (filenames faint_second) (0%nat, [])))
          (snd (nth 1 (filenames faint_second) (0%nat, []))).
Proof.
  assert (H : (0 <= 1 < 2)%nat) by lia.
  split; [exact faint_count | ]. split; [exact faint_two_frames | ].
  split; [exact H | ].
  exact (bins_never_decrease Demo.taylor_exp nat Demo.alternating
           Demo.faint_params 1 (of_Z 2) 2 0%nat 2%nat faint_second
           0%nat 1%nat faint_count faint_two_frames H).
Defined.

Lemma frame_grid_is_incremental_witness :
  effective_molecules 1 (of_Z 2) = Ok 2 /\
  run_frames Demo.taylor_exp Demo.alternating Demo.faint_params 1 (of_Z 2)
    (seq 0 2) (init_state 0%nat) = Next faint_second /\
  nth 0 (nth 0 (snd (nth 1 (filenames faint_second) (0%nat, []))) []) 0%nat
  = (nth 0 (nth 0 (snd (nth 0 (filenames faint_second) (0%nat, []))) []) 0
     + nth 0 (nth 0 (histogram2d
                       (skipn (1 * Z.to_nat 2)
                              (adsorbed_positions faint_second)))
                 []) 0)%nat.
Proof.
  split; [exact faint_count | ]. split; [exact faint_two_frames | ].
  exact (frame_grid_is_incremental Demo.taylor_exp nat Demo.alternating
           Demo.faint_params 1 2 (of_Z 2) 0%nat 0%nat faint_second
           0%nat 0%nat faint_count faint_two_frames).
Defined.


Lemma no_arrivals_stop_first_frame_witness :
  validate Demo.no_flow = Some no_flow_params /\
  is_zero (sccm no_flow_params) = true /\
  molecule_per_frame no_flow_params = Ok 0 /\
  run_simulation Demo.taylor_exp Demo.alternating Demo.no_flow 0%nat
  = Crashed running_status IndexError
      (init_state (snd (draw Demo.alternating 0 0%nat))).
Proof.
  assert (Hv : validate Demo.no_flow = Some no_flow_params)
    by (vm_compute; reflexivity).
  assert (Hz : is_zero (sccm no_flow_params) = true)
    by (vm_compute; reflexivity).
  split; [exact Hv | ]. split; [exact Hz | ].
  exact (no_arrivals_stop_first_frame Demo.taylor_exp nat Demo.alternating
           Demo.no_flow no_flow_params 0%nat Hv (or_introl Hz)).
Defined.

Lemma non_finite_flow_stops_before_loop_witness :
  validate nan_flow = Some nan_flow_params /\
  is_finite (sccm nan_flow_params) = false /\
  run_simulation Demo.taylor_exp Demo.alternating nan_flow 0%nat
  = Crashed running_status ValueError (init_state 0%nat).
Proof.
  assert (Hv : validate nan_flow = Some nan_flow_params)
    by (vm_compute; reflexivity).
  assert (Hf : is_finite (sccm nan_flow_params) = false) by reflexivity.
  split; [exact Hv | ]. split; [exact Hf | ].
  exact (non_finite_flow_stops_before_loop Demo.taylor_exp nat
           Demo.alternating nan_flow nan_flow_params 0%nat Hv Hf).
Defined.

